(** * YouTube-MP3-Downloader: the backend's request handlers (index.js)

    A shallow embedding of the Express handlers of the backend: the
    metadata helper [ytDlpMetadata], the streaming download route
    [/api/download/:id] with its event callbacks, the search, video and
    health routes and the generic error handler.

    JavaScript values are embedded as data ([JsVal]); a handler is a
    computation in a state-and-exception monad over the session (response
    object, child processes); asynchronous callbacks are steps of a
    transition function driven by a list of events. *)

From Stdlib Require Import ZArith QArith Qround List Bool Lia Ascii String DecimalString.
Import ListNotations.

Set Implicit Arguments.
#[local] Set Warnings "-register-all".
Local Close Scope Q_scope.

(* ================================================================== *)
(** ** JavaScript values *)
(* ================================================================== *)

(** A JavaScript string is a sequence of UTF-16 code units. *)
Definition code_unit := N.
Definition jsstring := list code_unit.

(** Code units of an ASCII literal. *)
Definition u (s : string) : jsstring := map N_of_ascii (list_ascii_of_string s).

(** A JavaScript number: the exact value of a finite double, or one of the
    three special values.  [Math.floor] and [>] are exact on doubles, so
    they are the operations of [Q] on finite numbers. *)
Inductive JsNum :=
| Finite (q : Q)
| NaN
| PosInf
| NegInf.

Inductive JsVal :=
| JUndefined
| JNull
| JBool (b : bool)
| JNum (n : JsNum)
| JStr (s : jsstring)
| JArr (items : list JsVal)
| JObj (fields : list (jsstring * JsVal)).

(** Thrown values: error objects with a name and a message. *)
Record JsErr := mkErr { err_name : jsstring; err_message : jsstring }.

Definition Error (msg : jsstring) : JsErr := mkErr (u "Error") msg.
Definition TypeError (msg : jsstring) : JsErr := mkErr (u "TypeError") msg.
Definition URIError (msg : jsstring) : JsErr := mkErr (u "URIError") msg.

Inductive Result (A : Type) :=
| Ok (a : A)
| Throw (e : JsErr).
Arguments Ok {A} a.
Arguments Throw {A} e.

Definition rbind {A B} (r : Result A) (k : A -> Result B) : Result B :=
  match r with
  | Ok a => k a
  | Throw e => Throw e
  end.

Fixpoint rmap_list {A B} (f : A -> Result B) (l : list A) : Result (list B) :=
  match l with
  | [] => Ok []
  | x :: xs => rbind (f x) (fun y => rbind (rmap_list f xs) (fun ys => Ok (y :: ys)))
  end.

Fixpoint jsstring_eqb (a b : jsstring) : bool :=
  match a, b with
  | [], [] => true
  | x :: a', y :: b' => (x =? y)%N && jsstring_eqb a' b'
  | _, _ => false
  end.

(** [String(err)], that is [Error.prototype.toString]. *)
Definition String_of_err (e : JsErr) : jsstring :=
  match err_name e, err_message e with
  | [], m => m
  | n, [] => n
  | n, m => n ++ u ": " ++ m
  end.

(** Truthiness, and [a || b]. *)
Definition num_is_zero (n : JsNum) : bool :=
  match n with
  | Finite q => (Qnum q =? 0)%Z
  | _ => false
  end.

Definition truthy (v : JsVal) : bool :=
  match v with
  | JUndefined | JNull => false
  | JBool b => b
  | JNum NaN => false
  | JNum n => negb (num_is_zero n)
  | JStr s => match s with [] => false | _ => true end
  | JArr _ | JObj _ => true
  end.

Definition js_or (a b : JsVal) : JsVal := if truthy a then a else b.

(** Property read [v.key].  Reading a property of [null] or [undefined]
    throws; an object answers with its own field; strings and arrays
    answer [length]; everything else is [undefined]. *)
Fixpoint assoc (key : jsstring) (fields : list (jsstring * JsVal)) : JsVal :=
  match fields with
  | [] => JUndefined
  | (k, v) :: rest => if jsstring_eqb k key then v else assoc key rest
  end.

Definition num_of_nat (n : nat) : JsNum := Finite (inject_Z (Z.of_nat n)).

Definition getProp (v : JsVal) (key : jsstring) : Result JsVal :=
  match v with
  | JUndefined | JNull =>
      Throw (TypeError (u "Cannot read properties of null or undefined"))
  | JObj fields => Ok (assoc key fields)
  | JStr s => if jsstring_eqb key (u "length") then Ok (JNum (num_of_nat (List.length s)))
              else Ok JUndefined
  | JArr l => if jsstring_eqb key (u "length") then Ok (JNum (num_of_nat (List.length l)))
              else Ok JUndefined
  | _ => Ok JUndefined
  end.

(** Element read [v[0]]. *)
Definition getFirst (v : JsVal) : Result JsVal :=
  match v with
  | JUndefined | JNull =>
      Throw (TypeError (u "Cannot read properties of null or undefined"))
  | JArr (x :: _) => Ok x
  | JStr (c :: _) => Ok (JStr [c])
  | JObj fields => Ok (assoc (u "0") fields)
  | _ => Ok JUndefined
  end.

(** [Math.floor] and [>] on numbers. *)
Definition Math_floor (n : JsNum) : JsNum :=
  match n with
  | Finite q => Finite (inject_Z (Qfloor q))
  | other => other
  end.

Definition js_gt (a b : JsNum) : bool :=
  match a, b with
  | Finite x, Finite y => negb (Qle_bool x y)
  | PosInf, (Finite _ | NegInf) => true
  | Finite _, NegInf => true
  | _, _ => false
  end.

(* ================================================================== *)
(** ** String operations used by the handlers *)
(* ================================================================== *)

Definition between (lo hi c : N) : bool := (lo <=? c)%N && (c <=? hi)%N.

(** [\w]: ASCII letters, digits and the underscore. *)
Definition is_word (c : code_unit) : bool :=
  between 65 90 c || between 97 122 c || between 48 57 c || (c =? 95)%N.

(** [\s]: the white space and line terminator code points of ECMAScript. *)
Definition is_space (c : code_unit) : bool :=
  between 9 13 c || (c =? 32)%N || (c =? 160)%N || (c =? 5760)%N
  || between 8192 8202 c || (c =? 8232)%N || (c =? 8233)%N || (c =? 8239)%N
  || (c =? 8287)%N || (c =? 12288)%N || (c =? 65279)%N.

(** The class [[^\w\s.-]] of the sanitizing pattern: a code unit matches
    when it is none of [\w], [\s], [.] and [-].  The [i] flag adds nothing:
    without the [u] flag case folding never maps a code unit above 127 to
    an ASCII one, and [\w] already holds both cases of every letter. *)
Definition strip_class (c : code_unit) : bool :=
  negb (is_word c || is_space c || (c =? 46)%N || (c =? 45)%N).

(** [s.replace(/[^\w\s.-]/gi, '')]. *)
Definition replace_strip (s : jsstring) : jsstring :=
  filter (fun c => negb (strip_class c)) s.

(** [s.substring(0, n)] and [s.slice(0, n)] for a non-negative [n]. *)
Definition substring0 (n : nat) (s : jsstring) : jsstring := firstn n s.

(** [s.trim()]. *)
Fixpoint trim_start (s : jsstring) : jsstring :=
  match s with
  | c :: rest => if is_space c then trim_start rest else s
  | [] => []
  end.

Definition trim (s : jsstring) : jsstring := rev (trim_start (rev (trim_start s))).

(** [s.split('\n')]: the pieces between line feeds (always at least one). *)
Fixpoint split_lines (s : jsstring) : list jsstring :=
  match s with
  | [] => [[]]
  | c :: rest =>
      match split_lines rest with
      | line :: more => if (c =? 10)%N then [] :: line :: more else (c :: line) :: more
      | [] => [[c]]
      end
  end.

(** [l.slice(-n)]. *)
Definition slice_last {A} (n : nat) (l : list A) : list A := skipn (List.length l - n) l.

(** [l.join('\n')]. *)
Fixpoint join_lines (l : list jsstring) : jsstring :=
  match l with
  | [] => []
  | [x] => x
  | x :: rest => x ++ 10%N :: join_lines rest
  end.

(** Template-literal rendering of an exit code: a decimal integer, or
    [null] when the process was ended by a signal. *)
Definition show_Z (z : Z) : jsstring := u (NilZero.string_of_int (Z.to_int z)).

Definition show_code (code : option Z) : jsstring :=
  match code with
  | Some z => show_Z z
  | None => u "null"
  end.

(** [encodeURIComponent]: unreserved ASCII is kept, every other code point
    is written as the percent-encoded bytes of its UTF-8 form; a lone
    surrogate throws. *)
Definition uri_unreserved (c : code_unit) : bool :=
  between 65 90 c || between 97 122 c || between 48 57 c
  || existsb (N.eqb c) [45; 95; 46; 33; 126; 42; 39; 40; 41]%N.

Definition hex_digit (d : N) : code_unit := (if d <? 10 then 48 + d else 55 + d)%N.

Definition percent (b : N) : jsstring := [37%N; hex_digit (b / 16); hex_digit (b mod 16)].

Definition utf8 (cp : N) : list N :=
  (if cp <? 128 then [cp]
   else if cp <? 2048 then [192 + cp / 64; 128 + cp mod 64]
   else if cp <? 65536 then [224 + cp / 4096; 128 + (cp / 64) mod 64; 128 + cp mod 64]
   else [240 + cp / 262144; 128 + (cp / 4096) mod 64; 128 + (cp / 64) mod 64;
         128 + cp mod 64])%N.

Definition is_high_surrogate (c : code_unit) : bool := between 55296 56319 c.
Definition is_low_surrogate (c : code_unit) : bool := between 56320 57343 c.

Fixpoint encodeURIComponent (s : jsstring) : Result jsstring :=
  match s with
  | [] => Ok []
  | c :: rest =>
      if uri_unreserved c then
        rbind (encodeURIComponent rest) (fun r => Ok (c :: r))
      else if is_low_surrogate c then Throw (URIError (u "URI malformed"))
      else if is_high_surrogate c then
        match rest with
        | c2 :: rest' =>
            if is_low_surrogate c2 then
              let cp := ((c - 55296) * 1024 + (c2 - 56320) + 65536)%N in
              rbind (encodeURIComponent rest')
                    (fun r => Ok (List.concat (map percent (utf8 cp)) ++ r))
            else Throw (URIError (u "URI malformed"))
        | [] => Throw (URIError (u "URI malformed"))
        end
      else
        rbind (encodeURIComponent rest)
              (fun r => Ok (List.concat (map percent (utf8 c)) ++ r))
  end.

(* ================================================================== *)
(** ** Filename derivation of the download route *)
(* ================================================================== *)

(** [(title || 'audio').replace(/[^\w\s.-]/gi, '').substring(0, 60)].
    Only strings have a [replace] method: any other truthy title makes the
    call throw a [TypeError]. *)
Definition safeTitle (title : JsVal) : Result jsstring :=
  match js_or title (JStr (u "audio")) with
  | JStr s => Ok (substring0 60 (replace_strip s))
  | _ => Throw (TypeError (u "replace is not a function"))
  end.

(** [`${safeTitle}.mp3`]. *)
Definition filename_of (title : JsVal) : Result jsstring :=
  rbind (safeTitle title) (fun t => Ok (t ++ u ".mp3")).

(** The allow-list [[A-Za-z0-9 ._-]] as the specification writes it. *)
Definition spec_allowed (c : code_unit) : bool :=
  between 65 90 c || between 97 122 c || between 48 57 c
  || (c =? 32)%N || (c =? 46)%N || (c =? 95)%N || (c =? 45)%N.

(* ================================================================== *)
(** ** Session state: the response and the child processes *)
(* ================================================================== *)

Inductive Signal := SIGTERM | SIGKILL.

(** A spawned child process.  [kill_calls] are the [kill] calls made on
    the handle; [delivered] are the signals that reached the process: Node
    signals a child only while it has not exited. *)
Record Child := mkChild {
  argv : list jsstring;
  exited : bool;
  kill_calls : list Signal;
  delivered : list Signal
}.

Inductive BodyItem :=
| JsonBody (v : JsVal)
| AudioChunk (bytes : list Byte.byte).

(** The Express response: its fields, and the body items that went out. *)
Record Response := mkResponse {
  statusCode : Z;
  headers : list (jsstring * jsstring);
  headersSent : bool;
  finished : bool;
  destroyed : bool;
  body : list BodyItem
}.

(** What [ff.pipe(res, { end: true })] returns: fluent-ffmpeg's [pipe]
    hands back the writable stream it was given, here the response. *)
Inductive PipeTarget := TargetResponse.

Inductive Phase :=
| Pending      (* metadata not settled yet *)
| Streaming    (* all listeners registered *)
| Returned.    (* the handler answered or failed before wiring the pipeline *)

Record Session := mkSession {
  res : Response;
  ytProc : option Child;            (* [let ytProc = null] *)
  transcoder : option Child;        (* the ffmpeg process run by the fluent-ffmpeg command *)
  ffmpegProc : option PipeTarget;   (* [let ffmpegProc = null] *)
  ytErr : jsstring;
  phase : Phase
}.

Definition fresh_response : Response := mkResponse 200 [] false false false [].
Definition initial : Session := mkSession fresh_response None None None [] Pending.

Definition with_res (f : Response -> Response) (s : Session) : Session :=
  mkSession (f (res s)) (ytProc s) (transcoder s) (ffmpegProc s) (ytErr s) (phase s).
Definition with_ytProc (f : option Child -> option Child) (s : Session) : Session :=
  mkSession (res s) (f (ytProc s)) (transcoder s) (ffmpegProc s) (ytErr s) (phase s).
Definition with_transcoder (f : option Child -> option Child) (s : Session) : Session :=
  mkSession (res s) (ytProc s) (f (transcoder s)) (ffmpegProc s) (ytErr s) (phase s).
Definition with_ffmpegProc (t : option PipeTarget) (s : Session) : Session :=
  mkSession (res s) (ytProc s) (transcoder s) t (ytErr s) (phase s).
Definition with_ytErr (e : jsstring) (s : Session) : Session :=
  mkSession (res s) (ytProc s) (transcoder s) (ffmpegProc s) e (phase s).
Definition with_phase (p : Phase) (s : Session) : Session :=
  mkSession (res s) (ytProc s) (transcoder s) (ffmpegProc s) (ytErr s) p.

(** What the host does on this request, outside the handler's control. *)
Record Host := mkHost {
  has_flushHeaders : bool;            (* [res.flushHeaders?.()] *)
  spawn_fault : option JsErr;         (* [spawn] throws synchronously *)
  ffmpeg_fault : option JsErr;        (* building or starting the ffmpeg command throws *)
  kill_fault : Signal -> option JsErr (* [kill] throws *)
}.

(* ------------------------------------------------------------------ *)
(** *** The handler monad: session state and exceptions *)

Definition M (A : Type) : Type := Session -> Result A * Session.

Definition ret {A} (a : A) : M A := fun s => (Ok a, s).
Definition throw {A} (e : JsErr) : M A := fun s => (Throw e, s).
Definition bind {A B} (m : M A) (k : A -> M B) : M B :=
  fun s => match m s with
           | (Ok a, s') => k a s'
           | (Throw e, s') => (Throw e, s')
           end.
Definition lift {A} (r : Result A) : M A := fun s => (r, s).
Definition gets {A} (f : Session -> A) : M A := fun s => (Ok (f s), s).
Definition modify (f : Session -> Session) : M unit := fun s => (Ok tt, f s).

(** [try { m } catch (err) { h err }]. *)
Definition try_catch {A} (m : M A) (h : JsErr -> M A) : M A :=
  fun s => match m s with
           | (Ok a, s') => (Ok a, s')
           | (Throw e, s') => h e s'
           end.

(** [try { m } catch (_) { }]. *)
Definition try_ (m : M unit) : M unit := try_catch m (fun _ => ret tt).

Declare Scope js_scope.
Delimit Scope js_scope with js.
Notation "x <- m ;; k" := (bind m (fun x => k))
  (at level 61, m at next level, right associativity) : js_scope.
Notation "m ;; k" := (bind m (fun _ => k))
  (at level 61, right associativity) : js_scope.
Local Open Scope js_scope.

(* ------------------------------------------------------------------ *)
(** *** Response operations *)

Definition ERR_HTTP_HEADERS_SENT : JsErr :=
  mkErr (u "Error") (u "Cannot set headers after they are sent to the client").

Fixpoint set_assoc (k v : jsstring) (l : list (jsstring * jsstring)) :=
  match l with
  | [] => [(k, v)]
  | (k', v') :: rest => if jsstring_eqb k' k then (k, v) :: rest
                        else (k', v') :: set_assoc k v rest
  end.

Definition res_setHeader (k v : jsstring) : M unit :=
  fun s => if headersSent (res s) then (Throw ERR_HTTP_HEADERS_SENT, s)
           else (Ok tt, with_res (fun r => mkResponse (statusCode r) (set_assoc k v (headers r))
                                             (headersSent r) (finished r) (destroyed r) (body r)) s).

Definition res_flushHeaders : M unit :=
  modify (with_res (fun r => mkResponse (statusCode r) (headers r) true
                               (finished r) (destroyed r) (body r))).

Definition res_status (code : Z) : M unit :=
  modify (with_res (fun r => mkResponse code (headers r) (headersSent r)
                               (finished r) (destroyed r) (body r))).

(** Bytes reach the client only while the response is neither ended nor
    torn down. *)
Definition emit (item : BodyItem) (r : Response) : list BodyItem :=
  if finished r || destroyed r then body r else body r ++ [item].

(** What [JSON.stringify] makes of a value, read back: at every depth a
    field whose value is [undefined] is left out of its object, an
    [undefined] element of an array is written [null], and a number that
    is not finite is written [null]. *)
Fixpoint stringify_view (v : JsVal) : JsVal :=
  match v with
  | JNum (Finite q) => JNum (Finite q)
  | JNum _ => JNull
  | JArr items =>
      JArr (map (fun x => match x with
                          | JUndefined => JNull
                          | _ => stringify_view x
                          end) items)
  | JObj fields =>
      JObj ((fix kept (l : list (jsstring * JsVal)) : list (jsstring * JsVal) :=
               match l with
               | [] => []
               | (k, x) :: rest =>
                   match x with
                   | JUndefined => kept rest
                   | _ => (k, stringify_view x) :: kept rest
                   end
               end) fields)
  | other => other
  end.

(** [res.getHeader(name)]. *)
Fixpoint header_of (name : jsstring) (l : list (jsstring * jsstring)) : option jsstring :=
  match l with
  | [] => None
  | (k, v) :: rest => if jsstring_eqb k name then Some v else header_of name rest
  end.

(** The [Content-Type] that Express leaves after [res.json]: the type is
    [application/json] unless one is set already, which is kept, and
    sending the text adds the [utf-8] charset to it.  A type that carries
    parameters already (no handler sets one before [res.json]) is taken
    as it is. *)
Definition json_content_type (existing : option jsstring) : jsstring :=
  match existing with
  | None => u "application/json; charset=utf-8"
  | Some type => if existsb (N.eqb 59) type then type
                 else type ++ u "; charset=utf-8"
  end.

(** [res.json(v)]: settles the content type, sends the serialized value
    and ends the response; fails when the headers have gone out already. *)
Definition res_json (v : JsVal) : M unit :=
  fun s => if headersSent (res s) then (Throw ERR_HTTP_HEADERS_SENT, s)
           else (Ok tt, with_res (fun r =>
                   mkResponse (statusCode r)
                              (set_assoc (u "Content-Type")
                                         (json_content_type
                                            (header_of (u "Content-Type") (headers r)))
                                         (headers r))
                              true true (destroyed r)
                              (emit (JsonBody (stringify_view v)) r)) s).

(** A chunk written into the response by the pipe. *)
Definition res_write (chunk : list Byte.byte) : M unit :=
  modify (with_res (fun r =>
    if finished r || destroyed r then r
    else mkResponse (statusCode r) (headers r) true (finished r) (destroyed r)
                    (emit (AudioChunk chunk) r))).

(** [res.end()]: a second call changes nothing. *)
Definition res_end : M unit :=
  modify (with_res (fun r =>
    if finished r then r
    else mkResponse (statusCode r) (headers r) true true (destroyed r) (body r))).

(* ------------------------------------------------------------------ *)
(** *** Child process operations *)

(** [child.kill(sig)]. *)
Definition child_kill (h : Host) (sig : Signal) (c : Child) : Result unit * Child :=
  match kill_fault h sig with
  | Some e => (Throw e, mkChild (argv c) (exited c) (kill_calls c ++ [sig]) (delivered c))
  | None =>
      (Ok tt, mkChild (argv c) (exited c) (kill_calls c ++ [sig])
                      (if exited c then delivered c else delivered c ++ [sig]))
  end.

(** [ytProc && ytProc.kill(sig)]. *)
Definition kill_ytProc (h : Host) (sig : Signal) : M unit :=
  fun s => match ytProc s with
           | None => (Ok tt, s)
           | Some c => let (r, c') := child_kill h sig c in
                       (r, with_ytProc (fun _ => Some c') s)
           end.

(** [ytProc.kill()] with no guard: a [null] handle throws. *)
Definition kill_ytProc_unguarded (h : Host) (sig : Signal) : M unit :=
  fun s => match ytProc s with
           | None => (Throw (TypeError (u "Cannot read properties of null")), s)
           | Some c => let (r, c') := child_kill h sig c in
                       (r, with_ytProc (fun _ => Some c') s)
           end.

(** The [kill] member of the value held in [ffmpegProc]: the response
    stream has none, the lookup gives [undefined]. *)
Definition target_kill (t : PipeTarget) : option (Signal -> M unit) :=
  match t with
  | TargetResponse => None
  end.

(** [ffmpegProc && ffmpegProc.kill && ffmpegProc.kill(sig)]. *)
Definition kill_ffmpegProc (sig : Signal) : M unit :=
  fun s => match ffmpegProc s with
           | None => (Ok tt, s)
           | Some t => match target_kill t with
                       | None => (Ok tt, s)
                       | Some k => k sig s
                       end
           end.

Definition mark_exited (c : option Child) : option Child :=
  match c with
  | Some c => Some (mkChild (argv c) true (kill_calls c) (delivered c))
  | None => None
  end.

(** The [kill()] that fluent-ffmpeg itself makes on the ffmpeg process it
    runs: the default signal, which reaches the process unless it has
    exited.  The call is the library's, outside every [try] of the
    handler. *)
Definition library_kill (c : option Child) : option Child :=
  match c with
  | Some c => Some (mkChild (argv c) (exited c) (kill_calls c ++ [SIGTERM])
                            (if exited c then delivered c else delivered c ++ [SIGTERM]))
  | None => None
  end.

(* ================================================================== *)
(** ** The handlers *)
(* ================================================================== *)

Section Backend.

(** Built-ins of the JavaScript runtime that the handlers call and whose
    inner working no handler depends on: [JSON.parse], the conversion of a
    string to a number, and the conversion of an array or object to a
    number (which may throw). *)
Variable JSON_parse : jsstring -> Result JsVal.
Variable StringToNumber : jsstring -> JsNum.
Variable ObjectToNumber : JsVal -> Result JsNum.

Definition ToNumber (v : JsVal) : Result JsNum :=
  match v with
  | JUndefined => Ok NaN
  | JNull => Ok (Finite 0)
  | JBool b => Ok (Finite (if b then 1 else 0))
  | JNum n => Ok n
  | JStr s => Ok (StringToNumber s)
  | JArr _ | JObj _ => ObjectToNumber v
  end.

(* ------------------------------------------------------------------ *)
(** *** [ytDlpMetadata] *)

(** Events of the [yt-dlp -j] process that the helper listens to. *)
Inductive ProbeEvent :=
| PStdout (chunk : jsstring)
| PStderr (chunk : jsstring)
| PError (e : JsErr)
| PClose (code : option Z).

Record Probe := mkProbe {
  out : jsstring;
  err : jsstring;
  settled : option (Result JsVal)
}.

(** [resolve] and [reject] act on a promise only once. *)
Definition settle (r : Result JsVal) (p : Probe) : Probe :=
  match settled p with
  | Some _ => p
  | None => mkProbe (out p) (err p) (Some r)
  end.

Definition code_is_zero (code : option Z) : bool :=
  match code with
  | Some z => (z =? 0)%Z
  | None => false
  end.

(** [err.trim().split('\n').slice(-5).join('\n')]. *)
Definition stderr_tail (e : jsstring) : jsstring :=
  join_lines (slice_last 5 (split_lines (trim e))).

Definition exit_error (code : option Z) (e : jsstring) : JsErr :=
  Error (u "yt-dlp exited " ++ show_code code ++ u ": " ++ stderr_tail e).

Definition probe_step (p : Probe) (ev : ProbeEvent) : Probe :=
  match ev with
  | PStdout c => mkProbe (out p ++ c) (err p) (settled p)
  | PStderr c => mkProbe (out p) (err p ++ c) (settled p)
  | PError _ => settle (Throw (Error (u "yt-dlp not found on PATH"))) p
  | PClose code =>
      if negb (code_is_zero code) then settle (Throw (exit_error code (err p))) p
      else settle (JSON_parse (out p)) p
  end.

(** The optional [yt-dlp-exec] wrapper: the outcome of its promise for a
    URL, resolved with an output or rejected. *)
Definition Wrapper := jsstring -> Result JsVal.

(** [ytDlpMetadata(videoUrl)]: how the returned promise settles ([None]:
    it has not settled).  With the wrapper, a string output is parsed and
    any other output is passed on; without it, a process is spawned and
    its events decide. *)
Definition ytDlpMetadata (ytDlpExecWrapper : option Wrapper) (events : list ProbeEvent)
           (videoUrl : jsstring) : option (Result JsVal) :=
  match ytDlpExecWrapper with
  | Some wrapper =>
      Some (match wrapper videoUrl with
            | Ok (JStr output) => JSON_parse output
            | Ok output => Ok output
            | Throw e => Throw e
            end)
  | None => settled (fold_left probe_step events (mkProbe [] [] None))
  end.

Definition watch_url (id : jsstring) : jsstring := u "https://www.youtube.com/watch?v=" ++ id.

(* ------------------------------------------------------------------ *)
(** *** [GET /api/download/:id] *)

Definition quote : jsstring := [34%N].

Definition too_long_body : JsVal :=
  JObj [(u "error", JStr (u "Video too long. Maximum 1 hour allowed."))].

(** [Math.floor(meta.duration || 0)]. *)
Definition duration_of (meta : JsVal) : Result JsNum :=
  rbind (getProp meta (u "duration")) (fun d =>
  rbind (ToNumber (js_or d (JNum (Finite 0)))) (fun n =>
  Ok (Math_floor n))).

Definition spawn_ytdlp (h : Host) (url : jsstring) : M unit :=
  match spawn_fault h with
  | Some e => throw e
  | None =>
      modify (with_ytProc (fun _ =>
        Some (mkChild [u "yt-dlp"; u "-f"; u "bestaudio"; u "-o"; u "-"; u "--no-playlist"; url]
                      false [] [])))
  end.

(** [ffmpeg(ytProc.stdout).audioBitrate(128).audioCodec('libmp3lame')
    .format('mp3')...] followed by [ffmpegProc = ff.pipe(res, { end: true })]. *)
Definition start_ffmpeg (h : Host) : M unit :=
  match ffmpeg_fault h with
  | Some e => throw e
  | None =>
      modify (with_transcoder (fun _ =>
        Some (mkChild [u "ffmpeg"; u "-i"; u "pipe:0"; u "-b:a"; u "128k";
                       u "-acodec"; u "libmp3lame"; u "-f"; u "mp3"; u "pipe:1"]
                      false [] []))) ;;
      modify (with_ffmpegProc (Some TargetResponse))
  end.

(** The body of the [try] block, from the settled metadata on. *)
Definition download_try (h : Host) (id : jsstring) (meta_result : Result JsVal) : M unit :=
  meta <- lift meta_result ;;
  duration <- lift (duration_of meta) ;;
  if js_gt duration (Finite 3600) then
    res_status 400 ;;
    res_json too_long_body
  else
    title <- lift (getProp meta (u "title")) ;;
    filename <- lift (filename_of title) ;;
    encoded <- lift (encodeURIComponent filename) ;;
    res_setHeader (u "Content-Disposition")
                  (u "attachment; filename=" ++ quote ++ encoded ++ quote) ;;
    res_setHeader (u "Content-Type") (u "audio/mpeg") ;;
    res_setHeader (u "Cache-Control") (u "no-cache") ;;
    res_setHeader (u "Transfer-Encoding") (u "chunked") ;;
    res_setHeader (u "Connection") (u "keep-alive") ;;
    res_setHeader (u "Access-Control-Expose-Headers") (u "Content-Disposition") ;;
    (if has_flushHeaders h then res_flushHeaders else ret tt) ;;
    spawn_ytdlp h (watch_url id) ;;
    start_ffmpeg h ;;
    modify (with_phase Streaming).

Definition download_failed_body (e : JsErr) : JsVal :=
  JObj [(u "error", JStr (u "Download failed"));
        (u "details", JStr (substring0 500 (String_of_err e)))].

(** The [catch] block of the handler. *)
Definition download_catch (h : Host) (e : JsErr) : M unit :=
  try_ (kill_ytProc h SIGTERM) ;;
  sent <- gets (fun s => headersSent (res s)) ;;
  if negb sent then
    res_status 500 ;;
    res_json (download_failed_body e)
  else
    try_ res_end.

Definition leave (s : Session) : Session :=
  match phase s with
  | Streaming => s
  | _ => with_phase Returned s
  end.

(** The handler, resumed with the settled metadata promise. *)
Definition download_handler (h : Host) (id : jsstring) (meta_result : Result JsVal)
  : Result unit * Session :=
  let (r, s) := try_catch (download_try h id meta_result) (download_catch h) initial in
  (r, leave s).

(** A whole download request: the metadata is fetched first; while its
    promise is unsettled nothing else has happened. *)
Definition download_request (h : Host) (wrapper : option Wrapper) (probe : list ProbeEvent)
           (id : jsstring) : Result unit * Session :=
  match ytDlpMetadata wrapper probe (watch_url id) with
  | None => (Ok tt, initial)
  | Some meta_result => download_handler h id meta_result
  end.

(* ------------------------------------------------------------------ *)
(** *** The listeners of a streaming session *)

(** The events of a streaming session: those the handler listens to, the
    chunks and the end of the output that the pipe carries into the
    response, and the one doing of fluent-ffmpeg's own that a closed
    response sets off. *)
Inductive Event :=
| YtError (e : JsErr)                 (* [ytProc.on('error')] *)
| YtStderr (d : jsstring)             (* [ytProc.stderr.on('data')] *)
| YtClose (code : option Z)           (* [ytProc.on('close')] *)
| FfStart (cmd : jsstring)            (* ffmpeg ['start'] *)
| FfProgress (timemark : JsVal)       (* ffmpeg ['progress'] *)
| FfData (chunk : list Byte.byte)     (* a chunk of ffmpeg's standard output *)
| FfEnd                               (* ffmpeg's output ends, ['end'] fires *)
| FfError (e : JsErr)                 (* ffmpeg ['error'] *)
| ReqClose (aborted : bool)           (* [req.on('close')], with [req.aborted] *)
| FfOutputClosed (ended : bool).      (* fluent-ffmpeg's timer after the response closed *)

Definition conversion_failed_body (e : JsErr) : JsVal :=
  JObj [(u "error", JStr (u "Conversion failed")); (u "details", JStr (String_of_err e))].

(** The ffmpeg ['error'] listener. *)
Definition on_ffmpeg_error (h : Host) (e : JsErr) : M unit :=
  try_ (kill_ytProc_unguarded h SIGTERM) ;;
  sent <- gets (fun s => headersSent (res s)) ;;
  if negb sent then
    res_status 500 ;;
    res_json (conversion_failed_body e)
  else
    try_ res_end.

(** The request ['close'] listener. *)
Definition on_req_close (h : Host) (aborted : bool) : M unit :=
  fin <- gets (fun s => finished (res s)) ;;
  if aborted || fin then
    try_ (kill_ytProc h SIGKILL) ;;
    try_ (kill_ffmpegProc SIGKILL)
  else ret tt.

(** The response stream has closed: nothing written to it goes out any
    more. *)
Definition close_response (r : Response) : Response :=
  mkResponse (statusCode r) (headers r) (headersSent r) (finished r) true (body r).

(** What an event means for the world, whoever listens: a closed child
    has exited, an aborted request has lost its connection.

    [FfOutputClosed] is the doing of fluent-ffmpeg, which the handler
    loads.  The command that [ff.pipe(res)] runs listens to ['close'] on
    the stream it pipes into, here the response, and 20 ms after it
    reports the error [Output stream closed] (unless the command has
    emitted ['end'] or ['error'] before, [ended]) and calls [kill()] on
    the ffmpeg process.  The report runs the handler's ['error']
    listener; the [kill()] is recorded here.  The two touch different
    parts of the session, so their order does not show.  There is no
    timer where no command runs. *)
Definition happen (ev : Event) (s : Session) : Session :=
  match ev with
  | YtError _ | YtClose _ => with_ytProc mark_exited s
  | FfEnd | FfError _ => with_transcoder mark_exited s
  | ReqClose true => with_res close_response s
  | FfOutputClosed _ =>
      match transcoder s with
      | Some _ => with_transcoder library_kill (with_res close_response s)
      | None => s
      end
  | _ => s
  end.

Definition output_closed : JsErr := Error (u "Output stream closed").

(** The listener registered for an event.  Logging listeners change
    nothing.  The pipe of ffmpeg's output into the response writes each
    chunk and, with [end: true], ends the response with the output. *)
Definition listener (h : Host) (ev : Event) : M unit :=
  match ev with
  | YtError _ => ret tt
  | YtStderr d => modify (fun s => with_ytErr (ytErr s ++ d) s)
  | YtClose _ => ret tt
  | FfStart _ => ret tt
  | FfProgress _ => ret tt
  | FfData chunk => res_write chunk
  | FfEnd => res_end
  | FfError e => on_ffmpeg_error h e
  | ReqClose aborted => on_req_close h aborted
  | FfOutputClosed ended => if ended then ret tt else on_ffmpeg_error h output_closed
  end.

(** The listeners of [ytProc] exist from the spawn on, the others once the
    handler has wired the whole pipeline. *)
Definition listening (s : Session) (ev : Event) : bool :=
  match ev with
  | YtError _ | YtStderr _ | YtClose _ =>
      match ytProc s with Some _ => true | None => false end
  | _ => match phase s with Streaming => true | _ => false end
  end.

Definition step (h : Host) (s : Session) (ev : Event) : Result unit * Session :=
  let s1 := happen ev s in
  if listening s ev then listener h ev s1 else (Ok tt, s1).

(** A run: the events in order; an exception escaping a listener would
    stop it. *)
Fixpoint run (h : Host) (s : Session) (evs : list Event) : Result unit * Session :=
  match evs with
  | [] => (Ok tt, s)
  | ev :: rest =>
      match step h s ev with
      | (Ok _, s') => run h s' rest
      | (Throw e, s') => (Throw e, s')
      end
  end.

(* ------------------------------------------------------------------ *)
(** *** [GET /api/search] *)

(** [a?.key]. *)
Definition getProp_opt (a : JsVal) (key : jsstring) : Result JsVal :=
  match a with
  | JUndefined | JNull => Ok JUndefined
  | _ => getProp a key
  end.

(** The entry built for one search result [v]. *)
Definition video_entry (v : JsVal) : Result JsVal :=
  rbind (getProp v (u "videoId")) (fun id =>
  rbind (getProp v (u "title")) (fun title =>
  rbind (getProp v (u "description")) (fun description =>
  rbind (getProp v (u "thumbnail")) (fun thumbnail =>
  rbind (getProp v (u "author")) (fun author =>
  rbind (getProp_opt author (u "name")) (fun name =>
  rbind (getProp v (u "duration")) (fun duration =>
  rbind (getProp_opt duration (u "seconds")) (fun seconds =>
  rbind (getProp v (u "timestamp")) (fun timestamp =>
  rbind (getProp v (u "views")) (fun views =>
  rbind (getProp v (u "ago")) (fun ago =>
  Ok (JObj [(u "id", id); (u "title", title); (u "description", description);
            (u "thumbnail", thumbnail);
            (u "channelTitle", js_or name (JStr []));
            (u "duration", js_or seconds (JNum (Finite 0)));
            (u "timestamp", timestamp); (u "views", views); (u "ago", ago)])))))))))))).

(** [(results.videos || []).map(v => ...)]. *)
Definition videos_of (results : JsVal) : Result JsVal :=
  rbind (getProp results (u "videos")) (fun vs =>
  match js_or vs (JArr []) with
  | JArr l => rbind (rmap_list video_entry l) (fun entries => Ok (JArr entries))
  | _ => Throw (TypeError (u "map is not a function"))
  end).

Definition search_failed_body (e : JsErr) : JsVal :=
  JObj [(u "error", JStr (u "Search failed")); (u "details", JStr (String_of_err e))].

(** The handler, given [req.query.query] and the outcome of [ytSearch]. *)
Definition search_handler (query : JsVal) (search_result : Result JsVal) : M unit :=
  try_catch
    (if negb (truthy query) then
       res_status 400 ;;
       res_json (JObj [(u "error", JStr (u "Query parameter is required"))])
     else
       results <- lift search_result ;;
       videos <- lift (videos_of results) ;;
       res_json videos)
    (fun e =>
       res_status 500 ;;
       res_json (search_failed_body e)).

(* ------------------------------------------------------------------ *)
(** *** [GET /api/video/:id] *)

Definition video_info (meta : JsVal) : Result JsVal :=
  rbind (getProp meta (u "title")) (fun title =>
  rbind (duration_of meta) (fun duration =>
  rbind (getProp meta (u "uploader")) (fun uploader =>
  rbind (if truthy uploader then Ok uploader else getProp meta (u "uploader_id")) (fun up =>
  rbind (getProp meta (u "thumbnails")) (fun thumbs =>
  rbind (if truthy thumbs then getProp thumbs (u "length") else Ok thumbs) (fun has =>
  rbind (if truthy has
         then rbind (getFirst thumbs) (fun t0 => getProp t0 (u "url"))
         else Ok JNull) (fun thumbnail =>
  rbind (getProp meta (u "formats")) (fun formats =>
  Ok (JObj [(u "title", title); (u "duration", JNum duration);
            (u "author", js_or up (JStr []));
            (u "thumbnail", thumbnail);
            (u "formats", js_or formats (JArr []))]))))))))).

Definition video_failed_body (e : JsErr) : JsVal :=
  JObj [(u "error", JStr (u "Failed to get video info"));
        (u "details", JStr (substring0 500 (String_of_err e)))].

Definition video_handler (meta_result : Result JsVal) : M unit :=
  try_catch
    (meta <- lift meta_result ;;
     info <- lift (video_info meta) ;;
     res_json info)
    (fun e =>
       res_status 500 ;;
       res_json (video_failed_body e)).

(* ------------------------------------------------------------------ *)
(** *** [GET /api/health] and the generic error handler *)

Definition health_handler (timestamp tempDir : jsstring) : M unit :=
  res_json (JObj [(u "status", JStr (u "OK")); (u "timestamp", JStr timestamp);
                  (u "tempDir", JStr tempDir)]).

(** [process.env.NODE_ENV === 'development' ? String(err) : undefined]. *)
Definition dev_message (NODE_ENV : option jsstring) (e : JsErr) : JsVal :=
  match NODE_ENV with
  | Some v => if jsstring_eqb v (u "development") then JStr (String_of_err e) else JUndefined
  | None => JUndefined
  end.

Definition internal_error_body (NODE_ENV : option jsstring) (e : JsErr) : JsVal :=
  JObj [(u "error", JStr (u "Internal server error")); (u "message", dev_message NODE_ENV e)].

(** [app.use((err, req, res, next) => ...)]. *)
Definition generic_error_handler (NODE_ENV : option jsstring) (e : JsErr) : M unit :=
  res_status 500 ;;
  res_json (internal_error_body NODE_ENV e).

End Backend.

(* ================================================================== *)
(** ** Vocabulary of the properties *)
(* ================================================================== *)

(** The shape [{error: string, details?: string}] of a body. *)
Definition is_string (v : JsVal) : bool :=
  match v with JStr _ => true | _ => false end.

Definition error_shape (v : JsVal) : bool :=
  match v with
  | JObj fields =>
      is_string (assoc (u "error") fields)
      && forallb (fun kv => (jsstring_eqb (fst kv) (u "error")
                             || jsstring_eqb (fst kv) (u "details"))
                            && is_string (snd kv)) fields
  | _ => false
  end.

(** A response that went out as a JSON error: an error status and one JSON
    body. *)
Definition json_error_of (r : Response) : option JsVal :=
  match body r with
  | [JsonBody v] => if (400 <=? statusCode r)%Z then Some v else None
  | _ => None
  end.

(** The audio bytes a response carries, and those a run of events makes
    ffmpeg produce. *)
Fixpoint audio_bytes (items : list BodyItem) : list Byte.byte :=
  match items with
  | [] => []
  | AudioChunk b :: rest => b ++ audio_bytes rest
  | JsonBody _ :: rest => audio_bytes rest
  end.



Definition child_delivered (c : option Child) : list Signal :=
  match c with Some c => delivered c | None => [] end.

Definition child_calls (c : option Child) : list Signal :=
  match c with Some c => kill_calls c | None => [] end.

Definition child_exited (c : option Child) : bool :=
  match c with Some c => exited c | None => false end.

Definition spawned (s : Session) : nat :=
  (match ytProc s with Some _ => 1 | None => 0 end)
  + (match transcoder s with Some _ => 1 | None => 0 end).

(** The events whose listeners are the handler's own or the pipe's: all
    but the timer of fluent-ffmpeg. *)
Definition by_handler (ev : Event) : bool :=
  match ev with
  | FfOutputClosed _ => false
  | _ => true
  end.

Definition is_audio (item : BodyItem) : bool :=
  match item with AudioChunk _ => true | JsonBody _ => false end.

(** What holds of a download session at every moment. *)
Record Inv (s : Session) : Prop := mkInv {
  inv_finished_sent : finished (res s) = true -> headersSent (res s) = true;
  inv_unsent_empty : headersSent (res s) = false -> body (res s) = [];
  inv_streaming : phase s = Streaming ->
                  ytProc s <> None /\ ffmpegProc s = Some TargetResponse;
  inv_transcoder : phase s = Streaming -> transcoder s <> None;
  inv_body : forallb is_audio (body (res s)) = true
             \/ exists v, body (res s) = [JsonBody v] /\ error_shape v = true
                          /\ finished (res s) = true /\ (400 <=? statusCode (res s))%Z = true
}.

(** The sessions a download request can be in: before the metadata has
    settled, when the handler has run, and after each further event. *)
Inductive reachable (StringToNumber : jsstring -> JsNum)
          (ObjectToNumber : JsVal -> Result JsNum) (h : Host) : Session -> Prop :=
| reach_pending : reachable StringToNumber ObjectToNumber h initial
| reach_handler (id : jsstring) (m : Result JsVal) :
    reachable StringToNumber ObjectToNumber h
              (snd (download_handler StringToNumber ObjectToNumber h id m))
| reach_step (s : Session) (ev : Event) :
    reachable StringToNumber ObjectToNumber h s ->
    reachable StringToNumber ObjectToNumber h (snd (step h s ev)).

(** What the metadata process wrote before it closed. *)
Fixpoint stdout_of (evs : list ProbeEvent) : jsstring :=
  match evs with
  | [] => []
  | PStdout c :: rest => c ++ stdout_of rest
  | _ :: rest => stdout_of rest
  end.

Fixpoint stderr_of (evs : list ProbeEvent) : jsstring :=
  match evs with
  | [] => []
  | PStderr c :: rest => c ++ stderr_of rest
  | _ :: rest => stderr_of rest
  end.

Definition is_output (ev : ProbeEvent) : bool :=
  match ev with
  | PStdout _ | PStderr _ => true
  | _ => false
  end.

Definition is_development (NODE_ENV : option jsstring) : bool :=
  match NODE_ENV with
  | Some v => jsstring_eqb v (u "development")
  | None => false
  end.

(** The session of a request answered at once with a JSON body. *)
Definition json_session (code : Z) (v : JsVal) : Session :=
  mkSession (mkResponse code [(u "Content-Type", u "application/json; charset=utf-8")]
                        true true false [JsonBody (stringify_view v)])
            None None None [] Returned.

(** An instance of the runtime and of the host for the concrete examples:
    no example converts a string or an object to a number, and the parser
    knows the JSON literals only, which is all the examples parse. *)
Definition sample_StringToNumber : jsstring -> JsNum := fun _ => NaN.

(** The conversion of a string of decimal digits to a number, as
    [Number('4000')] is 4000; the one example that converts a string
    converts such a string. *)
Fixpoint digits_value (acc : N) (s : jsstring) : option N :=
  match s with
  | [] => Some acc
  | c :: rest => if between 48 57 c then digits_value (10 * acc + (c - 48)) rest
                 else None
  end.

Definition digits_StringToNumber (s : jsstring) : JsNum :=
  match s with
  | [] => Finite 0
  | _ => match digits_value 0 s with
         | Some n => Finite (inject_Z (Z.of_N n))
         | None => NaN
         end
  end.
Definition sample_ObjectToNumber : JsVal -> Result JsNum := fun _ => Ok NaN.

Definition SyntaxError (msg : jsstring) : JsErr := mkErr (u "SyntaxError") msg.

Definition sample_JSON_parse (text : jsstring) : Result JsVal :=
  if jsstring_eqb text (u "null") then Ok JNull
  else if jsstring_eqb text (u "true") then Ok (JBool true)
  else if jsstring_eqb text (u "false") then Ok (JBool false)
  else Throw (SyntaxError (u "Unexpected token or end of JSON input")).

Definition quiet_host : Host := mkHost true None None (fun _ => None).

(** A host whose response lacks [flushHeaders]. *)
Definition unflushed_host : Host := mkHost false None None (fun _ => None).

(** A host on which every [kill] throws. *)
Definition failing_kill_host : Host :=
  mkHost true None None (fun _ => Some (Error (u "kill EPERM"))).

Definition short_video : JsVal :=
  JObj [(u "title", JStr (u "Song: Bad/Name?")); (u "duration", JNum (Finite 215))].

Definition long_video : JsVal :=
  JObj [(u "title", JStr (u "Concert")); (u "duration", JNum (Finite 4000))].

(** A duration of 3600.5 seconds. *)
Definition fractional_video : JsVal :=
  JObj [(u "title", JStr (u "Concert")); (u "duration", JNum (Finite (7201 # 2)))].

Definition untimed_video : JsVal := JObj [(u "title", JStr (u "Clip"))].

(** A duration that is a string of digits, not a number. *)
Definition string_duration_video : JsVal :=
  JObj [(u "title", JStr (u "Concert")); (u "duration", JStr (u "4000"))].

Definition sample_download (h : Host) (meta : JsVal) : Session :=
  snd (download_handler sample_StringToNumber sample_ObjectToNumber h (u "dQw4w9WgXcQ") (Ok meta)).

(** The session after yt-dlp has closed and ffmpeg has failed. *)
Definition failed_session : Session :=
  snd (run failing_kill_host (sample_download failing_kill_host short_video)
           [FfData [Byte.x49; Byte.x44; Byte.x33]; YtClose (Some 0%Z);
            FfError (Error (u "ffmpeg exited with code 1"))]).

(* ================================================================== *)
(** ** Vocabulary of the further properties *)
(* ================================================================== *)

(** The events that come from the extraction process. *)
Definition from_ytdlp (ev : Event) : bool :=
  match ev with
  | YtError _ | YtStderr _ | YtClose _ => true
  | _ => false
  end.

(** The code units that [encodeURIComponent] leaves of a derived
    filename: letters, digits, underscore, dot, hyphen, and the percent
    sign of its escapes. *)
Definition header_safe (c : code_unit) : bool :=
  is_word c || (c =? 46)%N || (c =? 45)%N || (c =? 37)%N.

(** The white space that the sanitizing pattern keeps: the code units of
    [\s], one by one. *)
Definition kept_spaces : list code_unit :=
  [9; 10; 11; 12; 13; 32; 160; 5760; 8192; 8193; 8194; 8195; 8196; 8197; 8198;
   8199; 8200; 8201; 8202; 8232; 8233; 8239; 8287; 12288; 65279]%N.

(** The arguments of the streaming extraction process for a video. *)
Definition ytdlp_argv (id : jsstring) : list jsstring :=
  [u "yt-dlp"; u "-f"; u "bestaudio"; u "-o"; u "-"; u "--no-playlist"; watch_url id].

(** The keys of an entry of the search answer, in order. *)
Definition entry_keys : list jsstring :=
  [u "id"; u "title"; u "description"; u "thumbnail"; u "channelTitle";
   u "duration"; u "timestamp"; u "views"; u "ago"].

Definition is_nullish (v : JsVal) : bool :=
  match v with
  | JUndefined | JNull => true
  | _ => false
  end.

Definition keys_of (v : JsVal) : list jsstring :=
  match v with
  | JObj fields => map fst fields
  | _ => []
  end.

Definition field (key : jsstring) (v : JsVal) : JsVal :=
  match v with
  | JObj fields => assoc key fields
  | _ => JUndefined
  end.

(** The keys of the answer of the video route, in order. *)
Definition video_keys : list jsstring :=
  [u "title"; u "duration"; u "author"; u "thumbnail"; u "formats"].

Definition is_undefined (v : JsVal) : bool :=
  match v with
  | JUndefined => true
  | _ => false
  end.

(** The fields that [JSON.stringify] writes of an object, and what it
    writes for an element of an array: [stringify_view] on an object and
    on an array, by name. *)
Fixpoint kept_fields (l : list (jsstring * JsVal)) : list (jsstring * JsVal) :=
  match l with
  | [] => []
  | (k, x) :: rest =>
      match x with
      | JUndefined => kept_fields rest
      | _ => (k, stringify_view x) :: kept_fields rest
      end
  end.

Definition element_view (x : JsVal) : JsVal :=
  match x with
  | JUndefined => JNull
  | _ => stringify_view x
  end.

(* ================================================================== *)
(** ** The browser client (App.jsx) *)
(* ================================================================== *)

(** [decodeURIComponent]: a percent escape is read as a byte; a byte
    below 128 is the code unit itself, a lead byte announces one to three
    continuation escapes, and the bytes must be the well-formed UTF-8 of
    a code point (no overlong form, no surrogate, nothing above U+10FFFF).
    Anything else throws. *)
Definition hex_value (c : code_unit) : option N :=
  if between 48 57 c then Some (c - 48)%N
  else if between 65 70 c then Some (c - 55)%N
  else if between 97 102 c then Some (c - 87)%N
  else None.

Definition octet (h1 h2 : code_unit) : option N :=
  match hex_value h1, hex_value h2 with
  | Some a, Some b => Some (16 * a + b)%N
  | _, _ => None
  end.

(** The byte of an escape [%h1h2] that continues a UTF-8 sequence. *)
Definition continuation (p h1 h2 : code_unit) : option N :=
  if (p =? 37)%N then
    match octet h1 h2 with
    | Some b => if between 128 191 b then Some (b - 128)%N else None
    | None => None
    end
  else None.

Definition utf16 (cp : N) : jsstring :=
  (if cp <? 65536 then [cp]
   else [55296 + (cp - 65536) / 1024; 56320 + (cp - 65536) mod 1024])%N.

Definition malformed {A} : Result A := Throw (URIError (u "URI malformed")).

Fixpoint decodeURIComponent (s : jsstring) : Result jsstring :=
  match s with
  | [] => Ok []
  | c :: rest =>
      if negb (c =? 37)%N then rbind (decodeURIComponent rest) (fun r => Ok (c :: r))
      else
        match rest with
        | h1 :: h2 :: rest1 =>
            match octet h1 h2 with
            | None => malformed
            | Some b =>
                if (b <? 128)%N then
                  rbind (decodeURIComponent rest1) (fun r => Ok (b :: r))
                else if between 192 223 b then
                  match rest1 with
                  | p1 :: a1 :: a2 :: rest2 =>
                      match continuation p1 a1 a2 with
                      | Some x =>
                          let cp := ((b - 192) * 64 + x)%N in
                          if (128 <=? cp)%N
                          then rbind (decodeURIComponent rest2) (fun r => Ok (cp :: r))
                          else malformed
                      | None => malformed
                      end
                  | _ => malformed
                  end
                else if between 224 239 b then
                  match rest1 with
                  | p1 :: a1 :: a2 :: p2 :: b1 :: b2 :: rest3 =>
                      match continuation p1 a1 a2, continuation p2 b1 b2 with
                      | Some x, Some y =>
                          let cp := ((b - 224) * 4096 + x * 64 + y)%N in
                          if (2048 <=? cp)%N && negb (between 55296 57343 cp)
                          then rbind (decodeURIComponent rest3) (fun r => Ok (cp :: r))
                          else malformed
                      | _, _ => malformed
                      end
                  | _ => malformed
                  end
                else if between 240 247 b then
                  match rest1 with
                  | p1 :: a1 :: a2 :: p2 :: b1 :: b2 :: p3 :: c1 :: c2 :: rest4 =>
                      match continuation p1 a1 a2, continuation p2 b1 b2,
                            continuation p3 c1 c2 with
                      | Some x, Some y, Some z =>
                          let cp := ((b - 240) * 262144 + x * 4096 + y * 64 + z)%N in
                          if between 65536 1114111 cp
                          then rbind (decodeURIComponent rest4)
                                     (fun r => Ok (utf16 cp ++ r))
                          else malformed
                      | _, _, _ => malformed
                      end
                  | _ => malformed
                  end
                else malformed
            end
        | _ => malformed
        end
  end.

(** [.] of a pattern without the [s] flag: anything but a line
    terminator. *)
Definition is_dot (c : code_unit) : bool :=
  negb ((c =? 10)%N || (c =? 13)%N || (c =? 8232)%N || (c =? 8233)%N).

(** The longest run of [.] at the head of a string. *)
Fixpoint dot_run (s : jsstring) : jsstring :=
  match s with
  | c :: rest => if is_dot c then c :: dot_run rest else []
  | [] => []
  end.

Fixpoint strip_prefix (p s : jsstring) : option jsstring :=
  match p, s with
  | [], _ => Some s
  | x :: p', y :: s' => if (x =? y)%N then strip_prefix p' s' else None
  | _ :: _, [] => None
  end.

(** The group of the pattern after [filename=], an optional quote, the
    group [(.+)] and an optional quote, matched at the head of a string.
    The quote is taken when one is there, the group then takes the
    longest run of [.] (a closing quote included, so the last optional
    quote matches nothing); if that run is empty the quote is given back
    and becomes the group. *)
Definition quoted_group (s : jsstring) : option jsstring :=
  let unquoted := match dot_run s with [] => None | g => Some g end in
  match s with
  | c :: rest =>
      if (c =? 34)%N then
        match dot_run rest with
        | [] => unquoted
        | g => Some g
        end
      else unquoted
  | [] => None
  end.

(** The group of the leftmost match of the filename pattern in the
    header, as [contentDisposition.match] gives it. *)
Fixpoint match_filename (s : jsstring) : option jsstring :=
  match s with
  | [] => None
  | _ :: rest =>
      match strip_prefix (u "filename=") s with
      | Some after =>
          match quoted_group after with
          | Some g => Some g
          | None => match_filename rest
          end
      | None => match_filename rest
      end
  end.

(** What [fetch] gives [downloadMP3]: a rejection (network failure,
    abort), or a response with its status, the [Content-Disposition]
    header if the client may read one, and what [response.json()] and
    [response.blob()] settle with. *)
Record Reply := mkReply {
  reply_status : Z;
  reply_disposition : option jsstring;
  reply_json : Result JsVal;
  reply_blob : Result (list Byte.byte)
}.

(** What [downloadMP3] ends with: a file handed to the browser, or an
    error message shown. *)
Inductive Outcome :=
| Saved (filename : jsstring) (content : list Byte.byte)
| ErrorShown (message : jsstring).

(** [title.replace(/[^\w\s.-]/gi, '').substring(0, 50)] followed by
    [.mp3]: the name used when the header gives none. *)
Definition fallback_filename (title : JsVal) : Result jsstring :=
  match title with
  | JStr s => Ok (substring0 50 (replace_strip s) ++ u ".mp3")
  | JUndefined | JNull =>
      Throw (TypeError (u "Cannot read properties of null or undefined"))
  | _ => Throw (TypeError (u "replace is not a function"))
  end.

(** The filename: from the header when it matches, else the fallback. *)
Definition client_filename (title : JsVal) (disposition : option jsstring)
  : Result jsstring :=
  rbind (fallback_filename title) (fun fallback =>
  match disposition with
  | Some (c :: d) =>
      match match_filename (c :: d) with
      | Some g => decodeURIComponent g
      | None => Ok fallback
      end
  | _ => Ok fallback
  end).

Section Client.

(** [String(v)] for a value that is not a string, as [new Error(v)] needs
    it for its message. *)
Variable ToString : JsVal -> jsstring.

Definition message_of (v : JsVal) : jsstring :=
  match v with
  | JStr s => s
  | other => ToString other
  end.

(** The [try] block of [downloadMP3], after [fetch] has answered. *)
Definition downloadMP3_try (title : JsVal) (reply : Reply) : Result Outcome :=
  if negb ((200 <=? reply_status reply)%Z && (reply_status reply <=? 299)%Z) then
    let errorData := match reply_json reply with Ok v => v | Throw _ => JObj [] end in
    rbind (getProp errorData (u "error")) (fun e =>
    Throw (Error (message_of
      (js_or e (JStr (u "Download failed (" ++ show_Z (reply_status reply) ++ u ")"))))))
  else
    rbind (client_filename title (reply_disposition reply)) (fun filename =>
    rbind (reply_blob reply) (fun blob =>
    match blob with
    | [] => Throw (Error (u "Empty file received"))
    | _ => Ok (Saved filename blob)
    end)).

(** The [catch] block. *)
Definition downloadMP3_catch (e : JsErr) : Outcome :=
  if jsstring_eqb (err_name e) (u "AbortError") then
    ErrorShown (u "Download timeout. The video might be too long or there are network issues.")
  else
    match err_message e with
    | [] => ErrorShown (u "Failed to download MP3. Please try again.")
    | m => ErrorShown m
    end.

(** [downloadMP3(videoId, title)], given how [fetch] settled. *)
Definition downloadMP3 (title : JsVal) (fetched : Result Reply) : Outcome :=
  match rbind fetched (downloadMP3_try title) with
  | Ok outcome => outcome
  | Throw e => downloadMP3_catch e
  end.

End Client.

(** How the client sees a download session of the server once the
    response is complete: the status, the exposed header, the JSON body
    if that is what went out, and the audio bytes as the blob. *)
Definition reply_of (s : Session) : Reply :=
  mkReply (statusCode (res s))
          (header_of (u "Content-Disposition") (headers (res s)))
          (match body (res s) with
           | [JsonBody v] => Ok v
           | _ => Throw (SyntaxError (u "Unexpected end of JSON input"))
           end)
          (Ok (audio_bytes (body (res s)))).

(** [padStart(2, '0')]. *)
Definition pad_start2 (s : jsstring) : jsstring :=
  repeat 48%N (2 - List.length s) ++ s.

(** [formatDuration(seconds)] for a whole number of seconds below 2^53,
    where the arithmetic of the source is exact. *)
Definition formatDuration (seconds : N) : jsstring :=
  if (seconds =? 0)%N then u "0:00"
  else
    let hrs := (seconds / 3600)%N in
    let mins := ((seconds mod 3600) / 60)%N in
    let secs := (seconds mod 60)%N in
    if (0 <? hrs)%N then
      show_Z (Z.of_N hrs) ++ u ":" ++ pad_start2 (show_Z (Z.of_N mins)) ++ u ":"
             ++ pad_start2 (show_Z (Z.of_N secs))
    else
      show_Z (Z.of_N mins) ++ u ":" ++ pad_start2 (show_Z (Z.of_N secs)).

(** Two decimal digits. *)
Definition two_digits (x : N) : jsstring := [48 + x / 10; 48 + x mod 10]%N.

Definition sample_ToString : JsVal -> jsstring := fun _ => u "[object Object]".

(** The [error] texts of the download route. *)
Definition server_messages : list jsstring :=
  [u "Video too long. Maximum 1 hour allowed."; u "Download failed";
   u "Conversion failed"].

(** A JSON body of the download route carries one of them. *)
Definition known_error (s : Session) : Prop :=
  forall v, body (res s) = [JsonBody v] ->
            exists msg, In msg server_messages /\ getProp v (u "error") = Ok (JStr msg).

(* ================================================================== *)
(** ** Properties of the filename derivation *)
(* ================================================================== *)

Lemma jsstring_eqb_refl s : jsstring_eqb s s = true.
Proof. induction s as [|c s IH]; simpl; [reflexivity|]. now rewrite N.eqb_refl. Qed.

Lemma replace_strip_kept (s : jsstring) (c : code_unit) :
  In c (replace_strip s) -> strip_class c = false.
Proof.
  unfold replace_strip. rewrite filter_In. intros [_ H].
  now destruct (strip_class c).
Qed.

(** What the pattern keeps is the specification's allow-list, or white
    space. *)
Lemma kept_is_allowed_or_space (c : code_unit) :
  strip_class c = false -> spec_allowed c || is_space c = true.
Proof.
  unfold strip_class, spec_allowed, is_word.
  destruct (between 65 90 c), (between 97 122 c), (between 48 57 c),
    (c =? 95)%N, (is_space c), (c =? 46)%N, (c =? 45)%N, (c =? 32)%N;
    simpl; congruence.
Qed.

Lemma kept_without_space_is_allowed (c : code_unit) :
  strip_class c = false -> is_space c = false -> spec_allowed c = true.
Proof.
  intros Hk Hs. apply kept_is_allowed_or_space in Hk.
  rewrite Hs, orb_false_r in Hk. exact Hk.
Qed.

Lemma safeTitle_string (s : jsstring) :
  s <> [] -> safeTitle (JStr s) = Ok (substring0 60 (replace_strip s)).
Proof. destruct s; [congruence | reflexivity]. Qed.

Lemma safeTitle_falsy (title : JsVal) :
  truthy title = false -> safeTitle title = Ok (u "audio").
Proof. unfold safeTitle, js_or. now intros ->. Qed.

Lemma In_firstn_In {A} (n : nat) (l : list A) (x : A) : In x (firstn n l) -> In x l.
Proof.
  revert l. induction n as [|n IH]; intros [|y l]; simpl; try tauto.
  intros [->|H]; auto.
Qed.

Lemma strip_all (s : jsstring) : forallb strip_class s = true -> replace_strip s = [].
Proof.
  induction s as [|c s IH]; simpl; [reflexivity|].
  rewrite andb_true_iff. intros [Hc Hs]. rewrite Hc. simpl. auto.
Qed.

(** The base of a derived filename: at most 60 code units, each of them
    kept by the pattern. *)
Lemma safeTitle_bound (title : JsVal) (base : jsstring) :
  safeTitle title = Ok base ->
  List.length base <= 60 /\ Forall (fun c => strip_class c = false) base.
Proof.
  unfold safeTitle. destruct (js_or title (JStr (u "audio"))) eqn:E; try discriminate.
  intros H. assert (Hb : base = substring0 60 (replace_strip s)) by congruence.
  subst base. split.
  - apply firstn_le_length.
  - apply Forall_forall. intros c Hc.
    apply In_firstn_In in Hc. now apply replace_strip_kept in Hc.
Qed.

(** [C5], as the code has it: for every title string the derived
    filename is a base of at most 60 code units followed by [.mp3], and
    each of its code units is in the allow-list [[A-Za-z0-9 ._-]] or is a
    white-space character of the pattern's [\s] class (tab, line breaks,
    no-break and Unicode spaces), which the pattern keeps as well. *)
Theorem sanitized_filename_chars (s : jsstring) :
  exists base,
    filename_of (JStr s) = Ok (base ++ u ".mp3")
    /\ List.length base <= 60
    /\ Forall (fun c => spec_allowed c || is_space c = true) (base ++ u ".mp3").
Proof.
  destruct (safeTitle (JStr s)) as [base|e] eqn:E.
  - exists base. unfold filename_of. rewrite E. simpl.
    destruct (safeTitle_bound _ E) as [Hlen Hall].
    split; [reflexivity|]. split; [exact Hlen|].
    apply Forall_app. split.
    + eapply Forall_impl; [|exact Hall].
      intros c Hc. now apply kept_is_allowed_or_space.
    + repeat constructor.
  - destruct s; discriminate.
Qed.

(** The specification's allow-list alone is met by every title whose white space
    is made of plain spaces. *)
Lemma sanitized_filename_plain_spaces (s base : jsstring) :
  forallb (fun c => negb (is_space c) || (c =? 32)%N) s = true ->
  safeTitle (JStr s) = Ok base ->
  forallb spec_allowed (base ++ u ".mp3") = true.
Proof.
  intros Hs E. rewrite forallb_app. apply andb_true_iff. split; [|reflexivity].
  destruct s as [|c0 s'].
  - rewrite (@safeTitle_falsy (JStr [])) in E by reflexivity.
    assert (Hb : base = u "audio") by congruence. subst base. reflexivity.
  - rewrite safeTitle_string in E by discriminate.
    assert (Hb : base = substring0 60 (replace_strip (c0 :: s'))) by congruence.
    subst base. apply forallb_forall. intros c Hc.
    apply In_firstn_In in Hc.
    pose proof (replace_strip_kept _ _ Hc) as Hk.
    apply filter_In in Hc. destruct Hc as [Hin _].
    rewrite forallb_forall in Hs. specialize (Hs c Hin).
    destruct (is_space c) eqn:Esp.
    + simpl in Hs. apply N.eqb_eq in Hs. subst c. reflexivity.
    + now apply kept_without_space_is_allowed.
Qed.

(** A title with a colon and a no-break space (U+00A0): both are outside
    the allow-list; the colon is stripped, the no-break space is white
    space for the pattern and stays in the filename. *)
Lemma sanitized_filename_keeps_nbsp :
  let title := u "Live:" ++ [160%N] ++ u "Set" in
  forallb spec_allowed title = false
  /\ filename_of (JStr title) = Ok (u "Live" ++ [160%N] ++ u "Set.mp3")
  /\ spec_allowed 160%N = false
  /\ forallb spec_allowed (u "Live" ++ [160%N] ++ u "Set.mp3") = false.
Proof. repeat split. Qed.

(** [C10]: a falsy title gives [audio.mp3]; a title that is present and
    made only of characters the pattern strips gives [.mp3], because the
    fallback to [audio] is applied before the stripping. *)
Theorem filename_fallback_before_sanitizing :
  (forall title, truthy title = false -> filename_of title = Ok (u "audio.mp3"))
  /\ (forall s, s <> [] -> forallb strip_class s = true ->
        safeTitle (JStr s) = Ok [] /\ filename_of (JStr s) = Ok (u ".mp3")).
Proof.
  split.
  - intros title H. unfold filename_of. now rewrite (safeTitle_falsy _ H).
  - intros s Hne Hall.
    assert (E : safeTitle (JStr s) = Ok []).
    { rewrite (safeTitle_string Hne), (strip_all _ Hall). reflexivity. }
    split; [exact E|]. unfold filename_of. now rewrite E.
Qed.

Lemma filename_fallback_witness :
  filename_of JUndefined = Ok (u "audio.mp3")
  /\ filename_of (JStr []) = Ok (u "audio.mp3")
  /\ filename_of (JStr (u "?!/:")) = Ok (u ".mp3").
Proof.
  split; [|split].
  - apply (proj1 filename_fallback_before_sanitizing). reflexivity.
  - apply (proj1 filename_fallback_before_sanitizing). reflexivity.
  - apply (proj2 filename_fallback_before_sanitizing); [discriminate | reflexivity].
Defined.

(** The example of the specification: the colon, the slash and the
    question mark go, everything else stays. *)
Example sanitize_song :
  filename_of (JStr (u "Song: Bad/Name?.mp3")) = Ok (u "Song BadName.mp3.mp3").
Proof. reflexivity. Qed.

Example sanitize_long_title :
  rbind (safeTitle (JStr (repeat 97%N 100))) (fun t => Ok (List.length t)) = Ok 60.
Proof. reflexivity. Qed.

(** No code unit that the pattern keeps is a surrogate, so
    [encodeURIComponent] cannot throw on a derived filename. *)
Lemma kept_not_surrogate (c : code_unit) :
  strip_class c = false -> is_low_surrogate c = false /\ is_high_surrogate c = false.
Proof.
  unfold strip_class, is_word, is_space, is_low_surrogate, is_high_surrogate, between.
  rewrite negb_false_iff, !orb_true_iff, !andb_true_iff, !N.leb_le, !N.eqb_eq.
  intros H. split; apply andb_false_iff;
    rewrite !N.leb_gt; lia.
Qed.

Lemma encode_kept (s : jsstring) :
  Forall (fun c => strip_class c = false) s -> exists r, encodeURIComponent s = Ok r.
Proof.
  induction 1 as [|c s Hc _ [r IH]]; [now exists []|].
  destruct (kept_not_surrogate _ Hc) as [Hlow Hhigh].
  simpl. rewrite IH, Hlow, Hhigh. simpl.
  destruct (uri_unreserved c); eexists; reflexivity.
Qed.

Lemma encode_filename (title : JsVal) (filename : jsstring) :
  filename_of title = Ok filename -> exists r, encodeURIComponent filename = Ok r.
Proof.
  unfold filename_of. destruct (safeTitle title) as [base|e] eqn:E; [|discriminate].
  simpl. intros [= <-]. apply encode_kept. apply Forall_app. split.
  - now destruct (safeTitle_bound _ E).
  - repeat constructor.
Qed.

(* ================================================================== *)
(** ** Properties of the duration check *)
(* ================================================================== *)

Lemma floor_exceeds_iff (d : Q) : (3600 < Qfloor d)%Z <-> (3601 <= d)%Q.
Proof.
  split; intros H.
  - apply Qle_trans with (inject_Z (Qfloor d)); [|apply Qfloor_le].
    change (3601%Q) with (inject_Z 3601). rewrite <- Zle_Qle. lia.
  - apply Qfloor_resp_le in H. change (3601%Q) with (inject_Z 3601) in H.
    rewrite Qfloor_Z in H. lia.
Qed.

Lemma floor_of_integer (z : Z) : (3600 < Qfloor (inject_Z z))%Z <-> (3600 < z)%Z.
Proof. now rewrite Qfloor_Z. Qed.

Lemma js_gt_floor (d : Q) :
  js_gt (Math_floor (Finite d)) (Finite 3600) = true <-> (3600 < Qfloor d)%Z.
Proof.
  simpl. rewrite negb_true_iff.
  change (3600%Q) with (inject_Z 3600).
  split; intros H.
  - destruct (Z_lt_le_dec 3600 (Qfloor d)) as [Hlt|Hle]; [exact Hlt|].
    rewrite Zle_Qle in Hle. apply Qle_bool_iff in Hle. congruence.
  - destruct (Qle_bool (inject_Z (Qfloor d)) (inject_Z 3600)) eqn:E; [|reflexivity].
    apply Qle_bool_iff in E. rewrite <- Zle_Qle in E. lia.
Qed.

(** Whatever [Math.floor] leaves above 3600 was above 3600. *)
Lemma js_gt_floor_inv (n : JsNum) :
  js_gt (Math_floor n) (Finite 3600) = true -> js_gt n (Finite 3600) = true.
Proof.
  destruct n as [d| | |]; try (simpl; congruence).
  intros H. apply js_gt_floor in H. apply floor_exceeds_iff in H.
  simpl. rewrite negb_true_iff.
  destruct (Qle_bool d 3600) eqn:E; [|reflexivity].
  apply Qle_bool_iff in E.
  assert (Hc : (3601 <= 3600)%Q) by (eapply Qle_trans; eauto).
  unfold Qle in Hc. simpl in Hc. lia.
Qed.

Lemma positive_floor_truthy (d : Q) : (3600 < Qfloor d)%Z -> truthy (JNum (Finite d)) = true.
Proof.
  intros H. simpl. rewrite negb_true_iff. apply Z.eqb_neq. intros Hz.
  destruct d as [num den]. simpl in *. subst num. rewrite Z.div_0_l in H; lia.
Qed.

(** Proof steps shared by the handler lemmas: unfold the monad and the
    state operations, split on whatever the next step depends on. *)
Ltac run_handler :=
  cbv beta iota zeta delta
    [download_handler try_catch try_ download_try download_catch
     bind lift ret throw gets modify
     res_status res_json res_setHeader res_flushHeaders res_end res_write
     spawn_ytdlp start_ffmpeg kill_ytProc kill_ytProc_unguarded kill_ffmpegProc target_kill
     child_kill mark_exited library_kill close_response
     with_res with_ytProc with_transcoder with_ffmpegProc with_phase with_ytErr
     leave initial fresh_response
     res ytProc transcoder ffmpegProc ytErr phase
     statusCode headers headersSent finished destroyed body emit
     argv exited kill_calls delivered orb negb andb fst snd
     child_calls child_delivered child_exited spawned
     step happen listener listening on_ffmpeg_error on_req_close
     search_handler video_handler health_handler generic_error_handler].

Ltac split_path :=
  match goal with
  | |- context [match ?x with _ => _ end] =>
      lazymatch x with
      | context [match _ with _ => _ end] => fail
      | _ => destruct x eqn:?
      end
  end.

Ltac paths := run_handler; repeat (split_path; run_handler).

Ltac close_inv :=
  constructor; simpl;
  try solve [ auto | congruence | intros; discriminate
            | split; [discriminate | reflexivity]
            | left; reflexivity
            | right; eexists; repeat split; reflexivity ].

Ltac use_inv :=
  repeat match goal with
         | H : ?a = ?a -> _ |- _ => specialize (H eq_refl)
         | H : true = false -> _ |- _ => clear H
         | H : false = true -> _ |- _ => clear H
         | H : _ /\ _ |- _ => destruct H
         | H : exists _, _ |- _ => destruct H
         end.

Ltac close_step :=
  intros; use_inv; subst; use_inv;
  try solve
      [ auto | congruence | discriminate
      | split; [discriminate | auto; congruence]
      | left; reflexivity
      | right; eexists; repeat split; reflexivity
      | match goal with
        | H : _ \/ _ |- _ =>
            destruct H as [H | H];
            [ left; rewrite ?forallb_app; simpl; rewrite ?H; auto
            | use_inv; subst; try discriminate;
              right; eexists; repeat split; eauto ]
        end ].

Ltac open_session s :=
  let r := fresh "r" in
  destruct s as [r ? ? ? ? ?]; destruct r as [? ? ? ? ? ?].

Section Properties.

Variable JSON_parse : jsstring -> Result JsVal.
Variable StringToNumber : jsstring -> JsNum.
Variable ObjectToNumber : JsVal -> Result JsNum.

Local Abbreviation ToNumber := (ToNumber StringToNumber ObjectToNumber).
Local Abbreviation duration_of := (duration_of StringToNumber ObjectToNumber).
Local Abbreviation download_handler := (download_handler StringToNumber ObjectToNumber).
Local Abbreviation download_request := (download_request JSON_parse StringToNumber ObjectToNumber).
Local Abbreviation ytDlpMetadata := (ytDlpMetadata JSON_parse).
Local Abbreviation video_handler := (video_handler StringToNumber ObjectToNumber).
Local Abbreviation probe_step := (probe_step JSON_parse).

Lemma download_rejects (h : Host) (id : jsstring) (meta : JsVal) (n : JsNum) :
  duration_of meta = Ok n ->
  js_gt n (Finite 3600) = true ->
  download_handler h id (Ok meta) = (Ok tt, json_session 400 too_long_body).
Proof.
  intros Hd Hgt. unfold download_handler, try_catch, download_try, bind, lift.
  rewrite Hd, Hgt. reflexivity.
Qed.

(* ------------------------------------------------------------------ *)
(** *** The paths of the download handler *)


Lemma download_handler_returns (h : Host) (id : jsstring) (m : Result JsVal) :
  fst (download_handler h id m) = Ok tt.
Proof. paths; reflexivity. Qed.


Lemma initial_inv : Inv initial.
Proof. close_inv. Qed.

Lemma download_handler_inv (h : Host) (id : jsstring) (m : Result JsVal) :
  Inv (snd (download_handler h id m)).
Proof. paths; close_inv. Qed.

(* ------------------------------------------------------------------ *)
(** *** The listeners never throw and keep the invariant *)


Lemma step_returns (h : Host) (s : Session) (ev : Event) :
  fst (step h s ev) = Ok tt.
Proof. open_session s. destruct ev; paths; reflexivity. Qed.

Lemma step_inv (h : Host) (s : Session) (ev : Event) :
  Inv s -> Inv (snd (step h s ev)).
Proof.
  open_session s. intros [H1 H2 H3 H4 H5]. simpl in *.
  destruct ev; paths; constructor; simpl in *; close_step.
Qed.

Lemma reachable_inv (h : Host) (s : Session) :
  reachable StringToNumber ObjectToNumber h s -> Inv s.
Proof.
  induction 1.
  - apply initial_inv.
  - apply download_handler_inv.
  - now apply step_inv.
Qed.

(** A session without listeners: events leave no trace but the loss of
    the connection. *)
Lemma step_idle (h : Host) (s : Session) (ev : Event) :
  ytProc s = None -> transcoder s = None -> phase s <> Streaming ->
  let s' := snd (step h s ev) in
  ytProc s' = None /\ transcoder s' = None /\ phase s' = phase s
  /\ statusCode (res s') = statusCode (res s) /\ body (res s') = body (res s)
  /\ finished (res s') = finished (res s).
Proof.
  open_session s. simpl. intros -> -> Hp.
  destruct ev; paths; simpl; repeat split; try reflexivity; try congruence.
Qed.

Lemma run_step (h : Host) (s : Session) (ev : Event) (evs : list Event) :
  run h s (ev :: evs) = run h (snd (step h s ev)) evs.
Proof.
  simpl. pose proof (step_returns h s ev) as H.
  destruct (step h s ev) as [r s']. simpl in *. now subst r.
Qed.

Lemma run_returns (h : Host) (s : Session) (evs : list Event) :
  fst (run h s evs) = Ok tt.
Proof.
  revert s. induction evs as [|ev evs IH]; intros s; [reflexivity|].
  rewrite run_step. apply IH.
Qed.


Lemma run_idle (h : Host) (s : Session) (evs : list Event) :
  ytProc s = None -> transcoder s = None -> phase s <> Streaming ->
  let s' := snd (run h s evs) in
  ytProc s' = None /\ transcoder s' = None /\ phase s' = phase s
  /\ statusCode (res s') = statusCode (res s) /\ body (res s') = body (res s)
  /\ finished (res s') = finished (res s).
Proof.
  revert s. induction evs as [|ev evs IH]; intros s Hy Ht Hp.
  - simpl. repeat split; auto.
  - rewrite run_step.
    destruct (step_idle h s ev Hy Ht Hp) as (Hy' & Ht' & Hp' & Hs & Hb & Hf).
    assert (Hp'' : phase (snd (step h s ev)) <> Streaming) by congruence.
    destruct (IH _ Hy' Ht' Hp'') as (? & ? & ? & ? & ? & ?).
    cbv zeta. repeat split; congruence.
Qed.

Lemma reachable_run (h : Host) (s : Session) (evs : list Event) :
  reachable StringToNumber ObjectToNumber h s ->
  reachable StringToNumber ObjectToNumber h (snd (run h s evs)).
Proof.
  revert s. induction evs as [|ev evs IH]; intros s Hr; [exact Hr|].
  rewrite run_step. apply IH. apply reach_step. exact Hr.
Qed.

(* ------------------------------------------------------------------ *)
(** *** The duration ceiling *)

Lemma duration_of_number (meta : JsVal) (d : Q) :
  getProp meta (u "duration") = Ok (JNum (Finite d)) ->
  (3600 < Qfloor d)%Z ->
  duration_of meta = Ok (Math_floor (Finite d)).
Proof.
  intros Hg Hd. unfold duration_of. rewrite Hg. unfold rbind, js_or.
  rewrite (positive_floor_truthy _ Hd). reflexivity.
Qed.

(** [C1], as the code has it: when the metadata carries a numeric
    duration [d] whose floor exceeds 3600 (every integer above 3600, every
    number from 3601 on), the handler answers 400 with the JSON error
    body and nothing else: it starts neither the streaming extraction
    process nor the transcoder, and no audio byte is ever written for
    the request, whatever happens afterwards. *)
Theorem too_long_rejected_without_spawning
        (h : Host) (id : jsstring) (meta : JsVal) (d : Q) :
  getProp meta (u "duration") = Ok (JNum (Finite d)) ->
  (3600 < Qfloor d)%Z ->
  let s := snd (download_handler h id (Ok meta)) in
  statusCode (res s) = 400%Z
  /\ body (res s) = [JsonBody too_long_body]
  /\ finished (res s) = true
  /\ ytProc s = None /\ transcoder s = None
  /\ forall evs, let s' := snd (run h s evs) in
       ytProc s' = None /\ transcoder s' = None
       /\ statusCode (res s') = 400%Z
       /\ body (res s') = [JsonBody too_long_body]
       /\ audio_bytes (body (res s')) = [].
Proof.
  intros Hg Hd.
  assert (Hs : download_handler h id (Ok meta) = (Ok tt, json_session 400 too_long_body)).
  { apply (@download_rejects h id meta _ (@duration_of_number meta d Hg Hd)).
    now apply js_gt_floor. }
  rewrite Hs. cbv zeta. cbn [snd].
  do 5 (split; [reflexivity|]).
  intros evs.
  destruct (@run_idle h (json_session 400 too_long_body) evs eq_refl eq_refl)
    as (Hy & Ht & Hp & Hc & Hb & Hf); [discriminate | ].
  cbv zeta in Hy, Ht, Hc, Hb.
  split; [exact Hy|]. split; [exact Ht|].
  rewrite Hc, Hb. repeat split.
Qed.

Lemma status_400_only_too_long (h : Host) (id : jsstring) (m : Result JsVal) :
  statusCode (res (snd (download_handler h id m))) = 400%Z ->
  exists meta n, m = Ok meta /\ duration_of meta = Ok n /\ js_gt n (Finite 3600) = true.
Proof. paths; simpl; intros; try discriminate; eauto. Qed.

Lemma too_long_source (meta : JsVal) (n : JsNum) :
  duration_of meta = Ok n -> js_gt n (Finite 3600) = true ->
  exists v n0, getProp meta (u "duration") = Ok v /\ truthy v = true
               /\ ToNumber v = Ok n0 /\ js_gt n0 (Finite 3600) = true.
Proof.
  unfold duration_of. destruct (getProp meta (u "duration")) as [v|e]; [|discriminate].
  unfold rbind, js_or. destruct (truthy v) eqn:Ht.
  - destruct (ToNumber v) as [n0|e] eqn:En; [|discriminate].
    intros [= <-] Hgt. exists v, n0. repeat split; auto.
    now apply js_gt_floor_inv.
  - simpl. intros [= <-]. discriminate.
Qed.

(** [C9], as the code has it: a duration that is absent or falsy counts
    as 0 and the request is not rejected as too long; and whenever the
    handler answers 400, the metadata carries a truthy duration whose
    conversion to a number is greater than 3600.  The duration need not
    be a number itself: the check converts what it finds. *)
Theorem falsy_duration_never_too_long (h : Host) (id : jsstring) :
  (forall meta v,
      getProp meta (u "duration") = Ok v -> truthy v = false ->
      duration_of meta = Ok (Finite 0)
      /\ statusCode (res (snd (download_handler h id (Ok meta)))) <> 400%Z)
  /\ (forall m,
      statusCode (res (snd (download_handler h id m))) = 400%Z ->
      exists meta v n,
        m = Ok meta /\ getProp meta (u "duration") = Ok v /\ truthy v = true
        /\ ToNumber v = Ok n /\ js_gt n (Finite 3600) = true).
Proof.
  split.
  - intros meta v Hg Hf.
    assert (Hd : duration_of meta = Ok (Finite 0)).
    { unfold duration_of. rewrite Hg. unfold rbind, js_or. rewrite Hf. reflexivity. }
    split; [exact Hd|]. intros H400.
    apply status_400_only_too_long in H400.
    destruct H400 as (meta' & n & [= <-] & Hd' & Hgt).
    rewrite Hd in Hd'. injection Hd' as <-. discriminate.
  - intros m H400. apply status_400_only_too_long in H400.
    destruct H400 as (meta & n & -> & Hd & Hgt).
    destruct (too_long_source _ Hd Hgt) as (v & n0 & ? & ? & ? & ?).
    exists meta, v, n0. auto.
Qed.

(* ------------------------------------------------------------------ *)
(** *** Failure of the transcoder, disconnects, termination *)

(** [C3]: when ffmpeg reports an error in a streaming session, [kill] is
    called on the extraction process; if the headers have not been sent
    the response becomes a 500 with the JSON body
    [{error: 'Conversion failed', details}] (nothing reaches a client
    that is already gone); if they have, the response is only ended. *)
Theorem transcode_error_handling (h : Host) (s : Session) (e : JsErr) :
  reachable StringToNumber ObjectToNumber h s ->
  phase s = Streaming ->
  let s' := snd (step h s (FfError e)) in
  fst (step h s (FfError e)) = Ok tt
  /\ child_calls (ytProc s') = child_calls (ytProc s) ++ [SIGTERM]
  /\ (headersSent (res s) = false ->
      statusCode (res s') = 500%Z /\ finished (res s') = true
      /\ body (res s') =
         (if destroyed (res s) then [] else [JsonBody (conversion_failed_body e)]))
  /\ (headersSent (res s) = true ->
      finished (res s') = true /\ body (res s') = body (res s)
      /\ statusCode (res s') = statusCode (res s)).
Proof.
  intros Hr Hp. apply reachable_inv in Hr. destruct Hr as [H1 H2 H3 H4 H5].
  specialize (H3 Hp). destruct H3 as [Hy Hf].
  split; [apply step_returns|].
  open_session s. simpl in *. subst.
  paths; simpl; try congruence;
    repeat split; intros; try discriminate; try reflexivity; use_inv; subst;
    try reflexivity; try discriminate.
Qed.

(** [C4], as the code has it: no listener lets an exception escape,
    whatever [kill] does; a child that has exited is never signalled
    again; a response that is finished keeps its status, headers and
    body, and after the client is gone nothing more goes out. *)
Theorem termination_idempotent (h : Host) (s : Session) (ev : Event) :
  reachable StringToNumber ObjectToNumber h s ->
  let s' := snd (step h s ev) in
  fst (step h s ev) = Ok tt
  /\ (child_exited (ytProc s) = true ->
      child_exited (ytProc s') = true
      /\ child_delivered (ytProc s') = child_delivered (ytProc s))
  /\ (child_exited (transcoder s) = true ->
      child_exited (transcoder s') = true
      /\ child_delivered (transcoder s') = child_delivered (transcoder s))
  /\ (finished (res s) = true ->
      finished (res s') = true
      /\ statusCode (res s') = statusCode (res s)
      /\ headers (res s') = headers (res s)
      /\ body (res s') = body (res s))
  /\ (destroyed (res s) = true ->
      destroyed (res s') = true /\ body (res s') = body (res s)).
Proof.
  intros Hr. apply reachable_inv in Hr. destruct Hr as [H1 H2 H3 H4 H5].
  split; [apply step_returns|].
  open_session s. simpl in *.
  destruct ev; paths; simpl in *;
    repeat split; intros; try discriminate; try reflexivity; use_inv; subst;
    try reflexivity; try discriminate; try congruence.
Qed.

(** Once the client is gone nothing more goes out. *)
Lemma closed_sink_step (h : Host) (s : Session) (ev : Event) :
  destroyed (res s) = true ->
  destroyed (res (snd (step h s ev))) = true
  /\ body (res (snd (step h s ev))) = body (res s).
Proof.
  open_session s. simpl. intros ->.
  destruct ev; paths; simpl; split; reflexivity.
Qed.

Lemma closed_sink_run (h : Host) (s : Session) (evs : list Event) :
  destroyed (res s) = true ->
  destroyed (res (snd (run h s evs))) = true
  /\ body (res (snd (run h s evs))) = body (res s).
Proof.
  revert s. induction evs as [|ev evs IH]; intros s Hd; [now split|].
  rewrite run_step. destruct (closed_sink_step h s ev Hd) as [Hd' Hb'].
  destruct (IH _ Hd') as [Hd'' Hb'']. split; congruence.
Qed.

Lemma abort_closes_sink (h : Host) (s : Session) :
  destroyed (res (snd (step h s (ReqClose true)))) = true.
Proof. open_session s. paths; reflexivity. Qed.

Lemma abort_kills_extraction_only (h : Host) (s : Session) :
  Inv s -> phase s = Streaming ->
  let s' := snd (step h s (ReqClose true)) in
  child_calls (ytProc s') = child_calls (ytProc s) ++ [SIGKILL]
  /\ transcoder s' = transcoder s
  /\ body (res s') = body (res s).
Proof.
  intros [H1 H2 H3 H4 H5] Hp.
  specialize (H3 Hp). destruct H3 as [Hy Hf].
  open_session s. simpl in *. subst.
  paths; simpl in *; try congruence; repeat split; auto.
Qed.

(** The library's timer signals the transcoder: one [kill()] with the
    default signal. *)
Lemma timer_signals_transcoder (h : Host) (s : Session) (ended : bool) :
  transcoder (snd (step h s (FfOutputClosed ended))) = library_kill (transcoder s).
Proof. open_session s. paths; reflexivity. Qed.

(** No listener of the handler signals the transcoder. *)
Lemma handler_spares_transcoder (h : Host) (s : Session) (ev : Event) :
  by_handler ev = true ->
  child_calls (transcoder (snd (step h s ev))) = child_calls (transcoder s)
  /\ child_delivered (transcoder (snd (step h s ev))) = child_delivered (transcoder s).
Proof.
  open_session s. simpl.
  destruct ev; try discriminate; intros _; paths; split; reflexivity.
Qed.

Lemma handler_spares_transcoder_run (h : Host) (s : Session) (evs : list Event) :
  forallb by_handler evs = true ->
  child_calls (transcoder (snd (run h s evs))) = child_calls (transcoder s)
  /\ child_delivered (transcoder (snd (run h s evs))) = child_delivered (transcoder s).
Proof.
  revert s. induction evs as [|ev evs IH]; intros s Hall; [now split|].
  simpl in Hall. apply andb_true_iff in Hall. destruct Hall as [Hev Hevs].
  rewrite run_step.
  destruct (handler_spares_transcoder h s ev Hev) as [Hc Hd].
  destruct (IH (snd (step h s ev)) Hevs) as [Hc' Hd'].
  split; congruence.
Qed.

(** [C2], what the code does: on a disconnect the close listener calls
    [kill('SIGKILL')] on the extraction process, and on nothing else.  The
    value kept in [ffmpegProc] is the response stream, which has no
    [kill], so the forced signal that the listener means for the
    transcoder reaches nothing: neither this listener nor any other of
    the handler signals the transcoder.  What signals it is fluent-ffmpeg
    itself, whose timer calls [kill()] with the default signal once the
    response has closed.  The other half of the property holds: nothing
    is written to the closed response any more. *)
Theorem disconnect_sigkill_misses_transcoder (h : Host) (s : Session) :
  reachable StringToNumber ObjectToNumber h s ->
  phase s = Streaming ->
  let s' := snd (step h s (ReqClose true)) in
  child_calls (ytProc s') = child_calls (ytProc s) ++ [SIGKILL]
  /\ transcoder s' = transcoder s
  /\ body (res s') = body (res s)
  /\ (forall later,
        forallb by_handler later = true ->
        child_calls (transcoder (snd (run h s' later))) = child_calls (transcoder s)
        /\ child_delivered (transcoder (snd (run h s' later)))
           = child_delivered (transcoder s))
  /\ (forall ended,
        let s'' := snd (step h s' (FfOutputClosed ended)) in
        child_calls (transcoder s'') = child_calls (transcoder s) ++ [SIGTERM]
        /\ (child_exited (transcoder s) = false ->
            child_delivered (transcoder s'')
            = child_delivered (transcoder s) ++ [SIGTERM]))
  /\ forall later, body (res (snd (run h s' later))) = body (res s).
Proof.
  intros Hr Hp.
  destruct (abort_kills_extraction_only h (reachable_inv Hr) Hp) as (Hk & Ht & Hb).
  cbv zeta. do 3 (split; [assumption|]). split; [|split].
  - intros later Hall.
    destruct (handler_spares_transcoder_run h (snd (step h s (ReqClose true))) later Hall)
      as [Hc Hd].
    rewrite Ht in Hc, Hd. split; assumption.
  - intros ended. rewrite timer_signals_transcoder, Ht.
    pose proof (inv_transcoder (reachable_inv Hr) Hp) as Hsome.
    destruct (transcoder s) as [c|]; [|congruence].
    split; [reflexivity|]. simpl. intros ->. reflexivity.
  - intros later.
    destruct (closed_sink_run h _ later (abort_closes_sink h s)) as [_ Hb'].
    exact (eq_trans Hb' Hb).
Qed.

(* ------------------------------------------------------------------ *)
(** *** The happy path *)







(* ------------------------------------------------------------------ *)
(** *** Metadata that cannot be fetched *)

Lemma probe_outputs (evs : list ProbeEvent) (p : Probe) :
  forallb is_output evs = true ->
  fold_left probe_step evs p
  = mkProbe (out p ++ stdout_of evs) (err p ++ stderr_of evs) (settled p).
Proof.
  revert p. induction evs as [|ev evs IH]; intros [o e st] Hq; simpl.
  - now rewrite !app_nil_r.
  - simpl in Hq. apply andb_true_iff in Hq. destruct Hq as [Hev Hevs].
    destruct ev; try discriminate; simpl; rewrite (IH _ Hevs); simpl;
      now rewrite <- ?app_assoc.
Qed.

Lemma settled_stays (evs : list ProbeEvent) (p : Probe) (r : Result JsVal) :
  settled p = Some r -> settled (fold_left probe_step evs p) = Some r.
Proof.
  revert p. induction evs as [|ev evs IH]; intros p Hs; [exact Hs|].
  simpl. apply IH. destruct p as [o e st]. simpl in Hs. subst st.
  destruct ev; simpl; try reflexivity.
  destruct (negb (code_is_zero code)); reflexivity.
Qed.

(** The promise of the spawning path settles at the first close event. *)
Lemma probe_close (pre post : list ProbeEvent) (code : option Z) (url : jsstring) :
  forallb is_output pre = true ->
  ytDlpMetadata None (pre ++ PClose code :: post) url
  = Some (if negb (code_is_zero code)
          then Throw (exit_error code (stderr_of pre))
          else JSON_parse (stdout_of pre)).
Proof.
  intros Hq. unfold ytDlpMetadata. rewrite fold_left_app, (probe_outputs _ _ Hq).
  simpl. apply settled_stays. simpl.
  destruct (code_is_zero code); reflexivity.
Qed.

(* ------------------------------------------------------------------ *)
(** *** From the metadata to the stream *)

(** The [Content-Disposition] header of a streaming session carries the
    derived filename, URI-encoded. *)
Lemma download_disposition (h : Host) (id : jsstring) (meta : JsVal) :
  let s := snd (download_handler h id (Ok meta)) in
  phase s = Streaming ->
  exists title filename encoded,
    getProp meta (u "title") = Ok title
    /\ filename_of title = Ok filename
    /\ encodeURIComponent filename = Ok encoded
    /\ header_of (u "Content-Disposition") (headers (res s))
       = Some (u "attachment; filename=" ++ quote ++ encoded ++ quote).
Proof.
  paths; simpl; intros; try discriminate.
  all: match goal with
       | H1 : getProp _ _ = Ok ?t, H2 : filename_of ?t = Ok ?f,
         H3 : encodeURIComponent ?f = Ok ?e |- _ =>
           exists t, f, e; repeat split; try assumption; reflexivity
       end.
Qed.

(** Metadata with a duration within the ceiling and a title that is
    absent or a string starts the stream, unless the host fails. *)
Lemma download_streams (h : Host) (id : jsstring) (meta title : JsVal) (n : JsNum) :
  duration_of meta = Ok n -> js_gt n (Finite 3600) = false ->
  getProp meta (u "title") = Ok title ->
  (truthy title = false \/ exists t, title = JStr t) ->
  spawn_fault h = None -> ffmpeg_fault h = None ->
  let s := snd (download_handler h id (Ok meta)) in
  phase s = Streaming /\ spawned s = 2 /\ statusCode (res s) = 200%Z.
Proof.
  intros Hd Hgt Ht Hstr Hsp Hff.
  assert (Hfile : exists f, filename_of title = Ok f).
  { destruct Hstr as [Hf | [t ->]].
    - unfold filename_of. rewrite (safeTitle_falsy _ Hf). eexists. reflexivity.
    - destruct t; eexists; reflexivity. }
  destruct Hfile as [f Hf]. destruct (encode_filename _ Hf) as [r Hr].
  paths; simpl; try congruence; repeat split.
Qed.

Lemma download_fails_on_rejection (h : Host) (id : jsstring) (e : JsErr) :
  download_handler h id (Throw e) = (Ok tt, json_session 500 (download_failed_body e)).
Proof. reflexivity. Qed.

(** [C6], as the code has it: when the metadata process closes with
    status 0 and what it wrote is not parseable, and when the wrapper
    resolves with an unparseable string, the metadata promise is rejected
    with the parse error; when the process closes with another status the
    promise is rejected with the exit error, whatever was written; and
    whenever the promise is rejected, the download request answers 500
    and starts no process, then or later. *)
Theorem malformed_metadata_fails (h : Host) (id : jsstring) :
  (forall pre post e,
      forallb is_output pre = true ->
      JSON_parse (stdout_of pre) = Throw e ->
      ytDlpMetadata None (pre ++ PClose (Some 0%Z) :: post) (watch_url id)
      = Some (Throw e))
  /\ (forall pre post code,
      forallb is_output pre = true ->
      code_is_zero code = false ->
      ytDlpMetadata None (pre ++ PClose code :: post) (watch_url id)
      = Some (Throw (exit_error code (stderr_of pre))))
  /\ (forall (wrapper : Wrapper) evs output e,
      wrapper (watch_url id) = Ok (JStr output) ->
      JSON_parse output = Throw e ->
      ytDlpMetadata (Some wrapper) evs (watch_url id) = Some (Throw e))
  /\ (forall wrapper evs e,
      ytDlpMetadata wrapper evs (watch_url id) = Some (Throw e) ->
      let s := snd (download_request h wrapper evs id) in
      ytProc s = None /\ transcoder s = None
      /\ statusCode (res s) = 500%Z
      /\ body (res s) = [JsonBody (download_failed_body e)]
      /\ forall later, ytProc (snd (run h s later)) = None
                       /\ transcoder (snd (run h s later)) = None).
Proof.
  split; [|split; [|split]].
  - intros pre post e Hq Hp. rewrite (probe_close _ _ _ _ Hq). simpl. now rewrite Hp.
  - intros pre post code Hq Hc. rewrite (probe_close _ _ _ _ Hq). now rewrite Hc.
  - intros wrapper evs output e Hw Hp. unfold ytDlpMetadata. now rewrite Hw, Hp.
  - intros wrapper evs e Hm. unfold download_request. rewrite Hm.
    rewrite download_fails_on_rejection. cbv zeta. cbn [snd].
    do 4 (split; [reflexivity|]).
    intros later.
    destruct (@run_idle h (json_session 500 (download_failed_body e)) later eq_refl eq_refl)
      as (Hy & Ht & _); [discriminate|].
    split; assumption.
Qed.

(* ------------------------------------------------------------------ *)
(** *** JSON error bodies *)

Lemma reachable_error_shape (h : Host) (s : Session) (v : JsVal) :
  reachable StringToNumber ObjectToNumber h s ->
  json_error_of (res s) = Some v -> error_shape v = true.
Proof.
  intros Hr. apply reachable_inv in Hr. destruct Hr as [_ _ _ _ H5].
  unfold json_error_of. destruct H5 as [Ha | (v' & Hb & Hs & _)].
  - destruct (body (res s)) as [|[w|b] [|i l]]; try discriminate.
  - rewrite Hb. destruct (400 <=? statusCode (res s))%Z; [|discriminate].
    now intros [= <-].
Qed.

(** [C8], as the code has it: every JSON error body of the search, video
    and download routes has the shape [{error: string, details?: string}];
    the health route has no error body; the generic error handler answers
    [{error}] outside development mode and [{error, message}] in it. *)
Theorem json_error_bodies (h : Host) :
  (forall query r v,
      json_error_of (res (snd (search_handler query r initial))) = Some v ->
      error_shape v = true)
  /\ (forall m v,
      json_error_of (res (snd (video_handler m initial))) = Some v ->
      error_shape v = true)
  /\ (forall s v,
      reachable StringToNumber ObjectToNumber h s ->
      json_error_of (res s) = Some v -> error_shape v = true)
  /\ (forall timestamp tempDir,
      json_error_of (res (snd (health_handler timestamp tempDir initial))) = None)
  /\ (forall NODE_ENV e,
      let v := if is_development NODE_ENV
               then JObj [(u "error", JStr (u "Internal server error"));
                          (u "message", JStr (String_of_err e))]
               else JObj [(u "error", JStr (u "Internal server error"))] in
      json_error_of (res (snd (generic_error_handler NODE_ENV e initial))) = Some v
      /\ error_shape v = negb (is_development NODE_ENV)).
Proof.
  split; [|split; [|split; [|split]]].
  - intros query r v. paths; simpl; intros H; try discriminate;
      injection H as <-; reflexivity.
  - intros m v. paths; simpl; intros H; try discriminate;
      injection H as <-; reflexivity.
  - intros s v. apply reachable_error_shape.
  - reflexivity.
  - intros env e. unfold is_development. destruct env as [mode|]; [|split; reflexivity].
    unfold generic_error_handler, internal_error_body, dev_message.
    destruct (jsstring_eqb mode (u "development")); split; reflexivity.
Qed.

End Properties.

(* ================================================================== *)
(** ** Concrete runs *)
(* ================================================================== *)

(** The filename as the client sees it in [Content-Disposition]. *)
Example disposition_song :
  header_of (u "Content-Disposition") (headers (res (sample_download quiet_host short_video)))
  = Some (u "attachment; filename=" ++ quote ++ u "Song%20BadName.mp3" ++ quote).
Proof. vm_compute. reflexivity. Qed.

Example disposition_untitled :
  header_of (u "Content-Disposition")
            (headers (res (sample_download quiet_host (JObj []))))
  = Some (u "attachment; filename=" ++ quote ++ u "audio.mp3" ++ quote).
Proof. vm_compute. reflexivity. Qed.

Example disposition_stripped :
  header_of (u "Content-Disposition")
            (headers (res (sample_download quiet_host (JObj [(u "title", JStr (u "?!/:"))]))))
  = Some (u "attachment; filename=" ++ quote ++ u ".mp3" ++ quote).
Proof. vm_compute. reflexivity. Qed.

(** Metadata that is [null] has no fields to read: the request fails with
    a 500 before anything is started. *)
Example null_metadata_fails :
  let s := snd (download_handler sample_StringToNumber sample_ObjectToNumber quiet_host
                                 (u "dQw4w9WgXcQ") (Ok JNull)) in
  statusCode (res s) = 500%Z /\ spawned s = 0 /\ phase s = Returned.
Proof. vm_compute. repeat split. Qed.

Lemma too_long_witness :
  getProp long_video (u "duration") = Ok (JNum (Finite 4000))
  /\ (3600 < Qfloor 4000)%Z
  /\ statusCode (res (sample_download quiet_host long_video)) = 400%Z
  /\ body (res (sample_download quiet_host long_video)) = [JsonBody too_long_body]
  /\ ytProc (sample_download quiet_host long_video) = None
  /\ transcoder (sample_download quiet_host long_video) = None.
Proof.
  split; [reflexivity|]. split; [reflexivity|].
  destruct (@too_long_rejected_without_spawning
              sample_StringToNumber sample_ObjectToNumber quiet_host (u "dQw4w9WgXcQ")
              long_video 4000 eq_refl eq_refl) as (H1 & H2 & _ & H3 & H4 & _).
  repeat split; assumption.
Defined.

(** A duration of 3600.5 seconds is above 3600, and the request is
    served: status 200, both processes started. *)
Lemma fractional_duration_not_rejected :
  getProp fractional_video (u "duration") = Ok (JNum (Finite (7201 # 2)))
  /\ (3600 < 7201 # 2)%Q
  /\ statusCode (res (sample_download quiet_host fractional_video)) = 200%Z
  /\ phase (sample_download quiet_host fractional_video) = Streaming
  /\ spawned (sample_download quiet_host fractional_video) = 2.
Proof. repeat split. Qed.

(** A video whose duration is the string [4000] is rejected as too long:
    the metadata carries no numeric duration, the check converts what it
    finds. *)
Lemma string_duration_rejected :
  let s := snd (download_handler digits_StringToNumber sample_ObjectToNumber quiet_host
                  (u "dQw4w9WgXcQ") (Ok string_duration_video)) in
  getProp string_duration_video (u "duration") = Ok (JStr (u "4000"))
  /\ statusCode (res s) = 400%Z
  /\ body (res s) = [JsonBody too_long_body]
  /\ ytProc s = None /\ transcoder s = None.
Proof. vm_compute. repeat split. Qed.

Lemma falsy_duration_witness :
  (getProp untimed_video (u "duration") = Ok JUndefined
   /\ truthy JUndefined = false
   /\ statusCode (res (sample_download quiet_host untimed_video)) <> 400%Z)
  /\ (statusCode (res (sample_download quiet_host long_video)) = 400%Z
      /\ exists v n, getProp long_video (u "duration") = Ok v /\ truthy v = true
                     /\ ToNumber sample_StringToNumber sample_ObjectToNumber v = Ok n
                     /\ js_gt n (Finite 3600) = true).
Proof.
  pose proof (@falsy_duration_never_too_long
                sample_StringToNumber sample_ObjectToNumber quiet_host (u "dQw4w9WgXcQ"))
    as [Hfalsy Hlong].
  split.
  - split; [reflexivity|]. split; [reflexivity|].
    exact (proj2 (Hfalsy untimed_video JUndefined eq_refl eq_refl)).
  - split; [reflexivity|].
    destruct (Hlong (Ok long_video) eq_refl) as (meta & v & n & Hm & Hg & Ht & Hn & Hgt).
    injection Hm as <-. exists v, n. auto.
Defined.

Lemma transcode_error_witness :
  (* headers flushed: the response is only ended *)
  (phase (sample_download quiet_host short_video) = Streaming
   /\ let s' := snd (step quiet_host (sample_download quiet_host short_video)
                          (FfError (Error (u "ffmpeg exited with code 1")))) in
      child_calls (ytProc s') = [SIGTERM]
      /\ finished (res s') = true /\ body (res s') = [] /\ statusCode (res s') = 200%Z)
  (* headers not sent: a 500 with the JSON body *)
  /\ (phase (sample_download unflushed_host short_video) = Streaming
      /\ let s' := snd (step unflushed_host (sample_download unflushed_host short_video)
                             (FfError (Error (u "ffmpeg exited with code 1")))) in
         child_calls (ytProc s') = [SIGTERM]
         /\ statusCode (res s') = 500%Z
         /\ body (res s')
            = [JsonBody (conversion_failed_body (Error (u "ffmpeg exited with code 1")))]).
Proof.
  split.
  - split; [reflexivity|].
    destruct (@transcode_error_handling
                sample_StringToNumber sample_ObjectToNumber quiet_host
                (sample_download quiet_host short_video)
                (Error (u "ffmpeg exited with code 1"))
                (reach_handler _ _ _ _ _) eq_refl) as (_ & Hk & _ & Hsent).
    destruct (Hsent eq_refl) as (Hf & Hb & Hs).
    cbv zeta. repeat split; assumption.
  - split; [reflexivity|].
    destruct (@transcode_error_handling
                sample_StringToNumber sample_ObjectToNumber unflushed_host
                (sample_download unflushed_host short_video)
                (Error (u "ffmpeg exited with code 1"))
                (reach_handler _ _ _ _ _) eq_refl) as (_ & Hk & Hunsent & _).
    destruct (Hunsent eq_refl) as (Hs & Hf & Hb).
    cbv zeta. repeat split; assumption.
Defined.

Lemma failed_session_reachable :
  reachable sample_StringToNumber sample_ObjectToNumber failing_kill_host failed_session.
Proof.
  unfold failed_session. apply reachable_run. apply reach_handler.
Defined.

Lemma termination_witness :
  let s' := snd (step failing_kill_host failed_session (ReqClose true)) in
  fst (step failing_kill_host failed_session (ReqClose true)) = Ok tt
  /\ child_exited (ytProc failed_session) = true
  /\ child_delivered (ytProc s') = child_delivered (ytProc failed_session)
  /\ finished (res failed_session) = true
  /\ body (res s') = body (res failed_session)
  /\ statusCode (res s') = statusCode (res failed_session).
Proof.
  destruct (@termination_idempotent
              sample_StringToNumber sample_ObjectToNumber failing_kill_host
              failed_session (ReqClose true) failed_session_reachable)
    as (Hok & Hyt & _ & Hfin & _).
  assert (Hexited : child_exited (ytProc failed_session) = true)
    by (vm_compute; reflexivity).
  assert (Hfinished : finished (res failed_session) = true)
    by (vm_compute; reflexivity).
  destruct (Hyt Hexited) as (_ & Hd).
  destruct (Hfin Hfinished) as (_ & Hs & _ & Hb).
  cbv zeta.
  exact (conj Hok (conj Hexited (conj Hd (conj Hfinished (conj Hb Hs))))).
Defined.

(** Two termination paths on one session, each taking effect.  After a
    transcoder error the response is finished and the running yt-dlp has
    been sent [SIGTERM]; the close of the request then sends it [SIGKILL]
    as well.  And on a response whose headers are unsent, a client abort
    tears the response down, after which a transcoder error still turns
    its status from 200 into 500 and finishes it. *)
Lemma second_termination_takes_effect :
  let e := Error (u "ffmpeg exited with code 1") in
  (let s0 := sample_download quiet_host short_video in
   let s1 := snd (step quiet_host s0 (FfError e)) in
   let s2 := snd (step quiet_host s1 (ReqClose false)) in
   finished (res s1) = true
   /\ child_exited (ytProc s1) = false
   /\ child_delivered (ytProc s1) = [SIGTERM]
   /\ child_delivered (ytProc s2) = [SIGTERM; SIGKILL])
  /\ (let t0 := sample_download unflushed_host short_video in
      let t1 := snd (step unflushed_host t0 (ReqClose true)) in
      let t2 := snd (step unflushed_host t1 (FfError e)) in
      destroyed (res t1) = true
      /\ child_delivered (ytProc t1) = [SIGKILL]
      /\ statusCode (res t1) = 200%Z /\ finished (res t1) = false
      /\ statusCode (res t2) = 500%Z /\ finished (res t2) = true
      /\ child_delivered (ytProc t2) = [SIGKILL; SIGTERM]).
Proof. vm_compute. repeat split. Qed.

(** A disconnect in mid-stream: yt-dlp is sent [SIGKILL]; ffmpeg is sent
    nothing by the handler, and [SIGTERM] by the library's timer, which
    also reports the closed output to the ['error'] listener. *)
Example disconnect_run :
  let s1 := snd (run quiet_host (sample_download quiet_host short_video)
                     [FfData [Byte.x49]; ReqClose true; FfData [Byte.x44]]) in
  let s2 := snd (step quiet_host s1 (FfOutputClosed false)) in
  child_delivered (ytProc s1) = [SIGKILL]
  /\ child_calls (transcoder s1) = []
  /\ child_delivered (transcoder s2) = [SIGTERM]
  /\ child_calls (ytProc s2) = [SIGKILL; SIGTERM]
  /\ finished (res s2) = true
  /\ body (res s2) = [AudioChunk [Byte.x49]].
Proof. vm_compute. repeat split. Qed.

Lemma disconnect_witness :
  phase (sample_download quiet_host short_video) = Streaming
  /\ let s := sample_download quiet_host short_video in
     let s' := snd (step quiet_host s (ReqClose true)) in
     child_calls (ytProc s') = child_calls (ytProc s) ++ [SIGKILL]
     /\ transcoder s' = transcoder s
     /\ body (res s') = body (res s)
     /\ (forall later,
           forallb by_handler later = true ->
           child_calls (transcoder (snd (run quiet_host s' later)))
           = child_calls (transcoder s)
           /\ child_delivered (transcoder (snd (run quiet_host s' later)))
              = child_delivered (transcoder s))
     /\ (forall ended,
           let s'' := snd (step quiet_host s' (FfOutputClosed ended)) in
           child_calls (transcoder s'') = child_calls (transcoder s) ++ [SIGTERM]
           /\ (child_exited (transcoder s) = false ->
               child_delivered (transcoder s'')
               = child_delivered (transcoder s) ++ [SIGTERM]))
     /\ forall later,
          body (res (snd (run quiet_host s' later))) = body (res s).
Proof.
  split; [reflexivity|].
  exact (@disconnect_sigkill_misses_transcoder
           sample_StringToNumber sample_ObjectToNumber quiet_host
           (sample_download quiet_host short_video)
           (reach_handler _ _ _ _ _) eq_refl).
Defined.


Lemma malformed_metadata_witness :
  let pre := [PStdout (u "<html>"); PStderr (u "WARNING: x"); PStdout (u "oops")] in
  forallb is_output pre = true
  /\ sample_JSON_parse (stdout_of pre)
     = Throw (SyntaxError (u "Unexpected token or end of JSON input"))
  /\ ytDlpMetadata sample_JSON_parse None (pre ++ [PClose (Some 0%Z)])
                   (watch_url (u "dQw4w9WgXcQ"))
     = Some (Throw (SyntaxError (u "Unexpected token or end of JSON input")))
  /\ let s := snd (download_request sample_JSON_parse sample_StringToNumber
                                    sample_ObjectToNumber quiet_host None
                                    (pre ++ [PClose (Some 0%Z)]) (u "dQw4w9WgXcQ")) in
     ytProc s = None /\ transcoder s = None /\ statusCode (res s) = 500%Z.
Proof.
  intros pre. split; [reflexivity|]. split; [reflexivity|].
  destruct (@malformed_metadata_fails
              sample_JSON_parse sample_StringToNumber sample_ObjectToNumber
              quiet_host (u "dQw4w9WgXcQ")) as (Hclose & _ & _ & Hreq).
  pose proof (Hclose pre [] _ eq_refl eq_refl) as Hm.
  split; [exact Hm|].
  destruct (Hreq None _ _ Hm) as (Hy & Ht & Hs & _).
  cbv zeta. repeat split; assumption.
Defined.

(** The usual failure of yt-dlp: nothing on its standard output, a
    message on its standard error, exit status 1.  The empty output is
    not parseable, and the promise is rejected with the exit error, not
    with a parse error. *)
Lemma malformed_output_with_exit_status :
  let evs := [PStderr (u "ERROR: Video unavailable"); PClose (Some 1%Z)] in
  stdout_of evs = []
  /\ sample_JSON_parse []
     = Throw (SyntaxError (u "Unexpected token or end of JSON input"))
  /\ ytDlpMetadata sample_JSON_parse None evs (watch_url (u "dQw4w9WgXcQ"))
     = Some (Throw (Error (u "yt-dlp exited 1: ERROR: Video unavailable")))
  /\ ytDlpMetadata sample_JSON_parse None evs (watch_url (u "dQw4w9WgXcQ"))
     <> Some (sample_JSON_parse (stdout_of evs)).
Proof. repeat split. discriminate. Qed.

Lemma json_error_witness :
  json_error_of (res (snd (search_handler JUndefined (Ok JNull) initial)))
  = Some (JObj [(u "error", JStr (u "Query parameter is required"))])
  /\ error_shape (JObj [(u "error", JStr (u "Query parameter is required"))]) = true
  /\ json_error_of (res (sample_download quiet_host long_video)) = Some too_long_body
  /\ error_shape too_long_body = true.
Proof.
  destruct (@json_error_bodies sample_StringToNumber sample_ObjectToNumber quiet_host)
    as (Hsearch & _ & Hdownload & _).
  split; [reflexivity|]. split.
  - exact (Hsearch JUndefined (Ok JNull) _ eq_refl).
  - split; [reflexivity|].
    exact (Hdownload (sample_download quiet_host long_video) too_long_body
                     (reach_handler _ _ _ _ _) eq_refl).
Defined.

(** In development mode the generic error handler answers with a
    [message] field, which the shape [{error, details?}] does not have. *)
Lemma development_error_body_has_message :
  let r := res (snd (generic_error_handler (Some (u "development"))
                                           (Error (u "boom")) initial)) in
  statusCode r = 500%Z
  /\ json_error_of r
     = Some (JObj [(u "error", JStr (u "Internal server error"));
                   (u "message", JStr (u "Error: boom"))])
  /\ error_shape (JObj [(u "error", JStr (u "Internal server error"));
                        (u "message", JStr (u "Error: boom"))]) = false.
Proof. repeat split. Qed.

(* ================================================================== *)
(** ** Further properties: the metadata helper *)
(* ================================================================== *)

Lemma split_lines_nonempty (s : jsstring) : split_lines s <> [].
Proof.
  destruct s as [|c rest]; simpl; [discriminate|].
  destruct (split_lines rest); [discriminate|].
  destruct (c =? 10)%N; discriminate.
Qed.

(** [split('\n')] and [join('\n')] undo each other. *)
Lemma join_split_lines (s : jsstring) : join_lines (split_lines s) = s.
Proof.
  induction s as [|c rest IH]; [reflexivity|].
  simpl. pose proof (split_lines_nonempty rest) as Hne.
  destruct (split_lines rest) as [|line more]; [congruence|].
  destruct (N.eqb_spec c 10) as [->|Hc].
  - simpl. simpl in IH. now rewrite IH.
  - rewrite <- IH. destruct more; reflexivity.
Qed.

Lemma split_lines_no_feed (s : jsstring) :
  Forall (fun line => ~ In 10%N line) (split_lines s).
Proof.
  induction s as [|c rest IH]; simpl.
  - constructor; [simpl; tauto | constructor].
  - pose proof (split_lines_nonempty rest) as Hne.
    destruct (split_lines rest) as [|line more]; [congruence|].
    destruct (N.eqb_spec c 10) as [->|Hc].
    + constructor; [simpl; tauto | exact IH].
    + inversion IH as [|? ? Hl Hm]; subst. constructor; [|exact Hm].
      simpl. intros [H|H]; [congruence | contradiction].
Qed.

Lemma join_lines_suffix (k : nat) (l : list jsstring) :
  exists p, join_lines l = p ++ join_lines (skipn k l).
Proof.
  revert l. induction k as [|k IH]; intros l; [now exists []|].
  destruct l as [|x l']; [now exists []|].
  destruct (IH l') as [p Hp]. simpl skipn.
  destruct l' as [|y l''].
  - exists x. rewrite skipn_nil. simpl. now rewrite app_nil_r.
  - exists (x ++ 10%N :: p).
    change (join_lines (x :: y :: l'')) with (x ++ 10%N :: join_lines (y :: l'')).
    rewrite Hp, <- app_assoc. reflexivity.
Qed.

Lemma count_feed_join (l : list jsstring) :
  Forall (fun line => ~ In 10%N line) l ->
  count_occ N.eq_dec (join_lines l) 10%N = List.length l - 1.
Proof.
  induction 1 as [|x l Hx Hl IH]; [reflexivity|].
  apply (count_occ_not_In N.eq_dec) in Hx.
  destruct l as [|y l'].
  - simpl. exact Hx.
  - change (join_lines (x :: y :: l')) with (x ++ 10%N :: join_lines (y :: l')).
    rewrite count_occ_app, Hx, count_occ_cons_eq by reflexivity.
    rewrite IH. simpl. lia.
Qed.

Lemma Forall_skipn_keep {A} (P : A -> Prop) (k : nat) (l : list A) :
  Forall P l -> Forall P (skipn k l).
Proof.
  revert l. induction k as [|k IH]; intros l H; [exact H|].
  destruct H; simpl; [constructor | now apply IH].
Qed.

(** The tail of the standard error kept for the exit error: a suffix of
    the trimmed text, made of at most five lines. *)
Lemma stderr_tail_bound (e : jsstring) :
  (exists p, trim e = p ++ stderr_tail e)
  /\ count_occ N.eq_dec (stderr_tail e) 10%N <= 4.
Proof.
  unfold stderr_tail, slice_last. split.
  - destruct (join_lines_suffix (List.length (split_lines (trim e)) - 5)
                                (split_lines (trim e))) as [p Hp].
    exists p. now rewrite <- Hp, join_split_lines.
  - rewrite count_feed_join.
    + rewrite length_skipn. lia.
    + apply Forall_skipn_keep, split_lines_no_feed.
Qed.


(* ------------------------------------------------------------------ *)
(** *** The filename in the header *)

(** What the pattern keeps and [encodeURIComponent] escapes is white
    space, one of twenty-five code units. *)
Lemma kept_space_enum (c : code_unit) :
  strip_class c = false -> uri_unreserved c = false -> In c kept_spaces.
Proof.
  unfold strip_class, uri_unreserved, is_word, is_space, between, kept_spaces.
  simpl existsb. rewrite negb_false_iff.
  rewrite !orb_true_iff, !orb_false_iff, !andb_true_iff, !andb_false_iff,
    !N.leb_le, !N.leb_gt, !N.eqb_eq, !N.eqb_neq.
  simpl In. lia.
Qed.

Lemma kept_unreserved_safe (c : code_unit) :
  strip_class c = false -> uri_unreserved c = true -> header_safe c = true.
Proof.
  unfold strip_class, uri_unreserved, header_safe, is_word, is_space, between.
  simpl existsb. rewrite negb_false_iff.
  rewrite !orb_true_iff, !andb_true_iff, !N.leb_le, !N.eqb_eq. lia.
Qed.

Lemma escaped_space_safe (c : code_unit) :
  In c kept_spaces -> forallb header_safe (List.concat (map percent (utf8 c))) = true.
Proof.
  revert c. apply forallb_forall. vm_compute. reflexivity.
Qed.

Lemma encode_kept_safe (s r : jsstring) :
  Forall (fun c => strip_class c = false) s ->
  encodeURIComponent s = Ok r -> forallb header_safe r = true.
Proof.
  intros H. revert r. induction H as [|c s Hc _ IH]; intros r.
  - intros [= <-]. reflexivity.
  - destruct (kept_not_surrogate _ Hc) as [Hlow Hhigh].
    simpl. rewrite Hlow, Hhigh.
    destruct (encodeURIComponent s) as [r'|e]; [|destruct (uri_unreserved c); discriminate].
    specialize (IH r' eq_refl).
    destruct (uri_unreserved c) eqn:Hu; simpl; intros [= <-].
    + simpl. now rewrite (@kept_unreserved_safe c Hc Hu), IH.
    + rewrite forallb_app, IH, (@escaped_space_safe c (@kept_space_enum c Hc Hu)).
      reflexivity.
Qed.

Lemma filename_kept (title : JsVal) (f : jsstring) :
  filename_of title = Ok f -> Forall (fun c => strip_class c = false) f.
Proof.
  unfold filename_of. destruct (safeTitle title) as [base|e] eqn:E; [|discriminate].
  simpl. intros [= <-]. apply Forall_app. split.
  - now destruct (safeTitle_bound _ E).
  - repeat constructor.
Qed.

(* ------------------------------------------------------------------ *)
(** *** What [JSON.stringify] keeps *)

Lemma jsstring_eqb_eq (a b : jsstring) : jsstring_eqb a b = true <-> a = b.
Proof.
  revert b. induction a as [|x a IH]; intros [|y b]; simpl; split;
    try discriminate; try reflexivity.
  - intros H. apply andb_true_iff in H. destruct H as [H1 H2].
    apply N.eqb_eq in H1. apply IH in H2. congruence.
  - intros [= -> ->]. rewrite N.eqb_refl. now apply IH.
Qed.

Lemma stringify_obj (fields : list (jsstring * JsVal)) :
  stringify_view (JObj fields) = JObj (kept_fields fields).
Proof.
  reflexivity.
Qed.

Lemma stringify_arr (items : list JsVal) :
  stringify_view (JArr items) = JArr (map element_view items).
Proof. reflexivity. Qed.

(** The keys written are keys of the object. *)
Lemma kept_keys_incl (fields : list (jsstring * JsVal)) :
  incl (map fst (kept_fields fields)) (map fst fields).
Proof.
  induction fields as [|[k x] rest IH]; [apply incl_refl|].
  destruct x; simpl;
    first [ apply incl_tl; exact IH
          | apply incl_cons; [now left | apply incl_tl; exact IH] ].
Qed.

(** A key whose value is not [undefined] is written. *)
Lemma kept_key_present (key : jsstring) (fields : list (jsstring * JsVal)) :
  is_undefined (assoc key fields) = false -> In key (map fst (kept_fields fields)).
Proof.
  induction fields as [|[k x] rest IH]; [discriminate|].
  simpl assoc. destruct (jsstring_eqb k key) eqn:E.
  - apply jsstring_eqb_eq in E. subst k. intros Hx.
    destruct x; try discriminate; left; reflexivity.
  - intros Hx. specialize (IH Hx).
    destruct x; simpl; auto.
Qed.

Lemma nullish_undefined (v : JsVal) : is_nullish v = false -> is_undefined v = false.
Proof. destruct v; auto. Qed.

(* ------------------------------------------------------------------ *)
(** *** The entries of the search answer *)

Lemma js_or_not_nullish (a b : JsVal) :
  is_nullish b = false -> is_nullish (js_or a b) = false.
Proof.
  intros Hb. unfold js_or. destruct (truthy a) eqn:Ht; [|exact Hb].
  destruct a; try reflexivity; discriminate.
Qed.

(** An entry as it is written: its keys are among the nine, and
    [channelTitle] and [duration] are always among them. *)
Lemma video_entry_shape (v raw : JsVal) :
  video_entry v = Ok raw ->
  element_view raw = stringify_view raw
  /\ incl (keys_of (stringify_view raw)) entry_keys
  /\ In (u "channelTitle") (keys_of (stringify_view raw))
  /\ In (u "duration") (keys_of (stringify_view raw)).
Proof.
  unfold video_entry, rbind.
  repeat match goal with
         | |- context [match ?x with _ => _ end] =>
             lazymatch x with
             | context [match _ with _ => _ end] => fail
             | _ => destruct x
             end
         end; try discriminate.
  intros [= <-]. split; [reflexivity|]. rewrite stringify_obj. cbn [keys_of].
  split; [exact (kept_keys_incl _)|].
  split; apply kept_key_present, nullish_undefined, js_or_not_nullish; reflexivity.
Qed.

Lemma getProp_total (v : JsVal) (key : jsstring) :
  is_nullish v = false -> exists x, getProp v key = Ok x.
Proof.
  destruct v; try discriminate; intros _; simpl; try (eexists; reflexivity).
  - destruct (jsstring_eqb key (u "length")); eexists; reflexivity.
  - destruct (jsstring_eqb key (u "length")); eexists; reflexivity.
Qed.

Lemma getProp_opt_total (a : JsVal) (key : jsstring) : exists x, getProp_opt a key = Ok x.
Proof.
  destruct (is_nullish a) eqn:Hn.
  - destruct a; try discriminate; eexists; reflexivity.
  - destruct (getProp_total a key Hn) as [x Hx]. exists x.
    destruct a; try discriminate; exact Hx.
Qed.

Lemma video_entry_total (v : JsVal) :
  is_nullish v = false -> exists e, video_entry v = Ok e.
Proof.
  intros Hn. unfold video_entry.
  repeat match goal with
         | |- context [getProp v ?k] =>
             let x := fresh "x" in let Hx := fresh "Hx" in
             destruct (getProp_total v k Hn) as [x Hx]; rewrite Hx; cbn [rbind]
         | |- context [getProp_opt ?a ?k] =>
             let x := fresh "x" in let Hx := fresh "Hx" in
             destruct (getProp_opt_total a k) as [x Hx]; rewrite Hx; cbn [rbind]
         end.
  eexists. reflexivity.
Qed.

Lemma video_entry_nullish (v : JsVal) :
  is_nullish v = true -> exists err, video_entry v = Throw err.
Proof. destruct v; try discriminate; intros _; eexists; reflexivity. Qed.

Lemma entries_all (l : list JsVal) :
  forallb (fun v => negb (is_nullish v)) l = true ->
  exists raw,
    rmap_list video_entry l = Ok raw
    /\ Forall2 (fun v e => exists x, video_entry v = Ok x /\ e = stringify_view x)
               l (map element_view raw)
    /\ Forall (fun e => incl (keys_of e) entry_keys
                        /\ In (u "channelTitle") (keys_of e)
                        /\ In (u "duration") (keys_of e)) (map element_view raw).
Proof.
  induction l as [|v l IH]; simpl; [intros _; exists []; repeat split; constructor|].
  rewrite andb_true_iff, negb_true_iff. intros [Hv Hl].
  destruct (video_entry_total v Hv) as [x Hx].
  destruct (IH Hl) as (raw & Hr & Hpair & Hall).
  destruct (video_entry_shape v Hx) as (He & Hshape).
  exists (x :: raw). rewrite Hx, Hr. simpl. rewrite He. repeat split.
  - constructor; [exists x; split; [exact Hx | reflexivity] | exact Hpair].
  - constructor; [exact Hshape | exact Hall].
Qed.

Lemma entries_some_nullish (l : list JsVal) :
  forallb (fun v => negb (is_nullish v)) l = false ->
  exists err, rmap_list video_entry l = Throw err.
Proof.
  induction l as [|v l IH]; simpl; [discriminate|].
  destruct (is_nullish v) eqn:Hv; simpl.
  - intros _. destruct (video_entry_nullish v Hv) as [err ->]. now exists err.
  - intros Hl. destruct (video_entry_total v Hv) as [e ->].
    destruct (IH Hl) as [err ->]. now exists err.
Qed.

Section More.

Variable JSON_parse : jsstring -> Result JsVal.
Variable StringToNumber : jsstring -> JsNum.
Variable ObjectToNumber : JsVal -> Result JsNum.

Local Abbreviation ToNumber := (ToNumber StringToNumber ObjectToNumber).
Local Abbreviation duration_of := (duration_of StringToNumber ObjectToNumber).
Local Abbreviation download_handler := (download_handler StringToNumber ObjectToNumber).
Local Abbreviation download_request := (download_request JSON_parse StringToNumber ObjectToNumber).
Local Abbreviation ytDlpMetadata := (ytDlpMetadata JSON_parse).
Local Abbreviation video_handler := (video_handler StringToNumber ObjectToNumber).
Local Abbreviation video_info := (video_info StringToNumber ObjectToNumber).
Local Abbreviation probe_step := (probe_step JSON_parse).

(** [X1]: the metadata promise settles once: whatever settled it, no
    later event of the process changes the outcome. *)
Theorem metadata_settles_once
        (evs later : list ProbeEvent) (url : jsstring) (r : Result JsVal) :
  ytDlpMetadata None evs url = Some r ->
  ytDlpMetadata None (evs ++ later) url = Some r.
Proof.
  unfold ytDlpMetadata. intros H. rewrite fold_left_app.
  now apply (@settled_stays JSON_parse).
Qed.

(** [X2]: while the metadata process only writes, the promise is pending;
    when it then closes with status 0 the promise settles with
    [JSON.parse] of everything it wrote to its standard output, the
    chunks in order, whatever went to its standard error. *)
Theorem metadata_resolves_with_stdout
        (pre post : list ProbeEvent) (url : jsstring) :
  forallb is_output pre = true ->
  ytDlpMetadata None pre url = None
  /\ ytDlpMetadata None (pre ++ PClose (Some 0%Z) :: post) url
     = Some (JSON_parse (stdout_of pre)).
Proof.
  intros Hq. unfold ytDlpMetadata. split.
  - now rewrite (@probe_outputs JSON_parse _ _ Hq).
  - rewrite fold_left_app, (@probe_outputs JSON_parse _ _ Hq). simpl.
    now apply (@settled_stays JSON_parse).
Qed.

(** [X3]: when the process cannot be started (its [error] event comes
    before any close), the promise is rejected with the fixed message
    [yt-dlp not found on PATH]: the underlying error is dropped, and so
    is what the process wrote. *)
Theorem metadata_spawn_error
        (pre post : list ProbeEvent) (e : JsErr) (url : jsstring) :
  forallb is_output pre = true ->
  ytDlpMetadata None (pre ++ PError e :: post) url
  = Some (Throw (Error (u "yt-dlp not found on PATH"))).
Proof.
  intros Hq. unfold ytDlpMetadata.
  rewrite fold_left_app, (@probe_outputs JSON_parse _ _ Hq). simpl.
  now apply (@settled_stays JSON_parse).
Qed.

(** [X4]: when the process closes with a status other than 0, the
    promise is rejected with [yt-dlp exited <code>: <tail>], where the
    tail is a suffix of the trimmed standard error and has at most five
    lines. *)
Theorem metadata_exit_error
        (pre post : list ProbeEvent) (code : option Z) (url : jsstring) :
  forallb is_output pre = true ->
  code_is_zero code = false ->
  exists tail,
    ytDlpMetadata None (pre ++ PClose code :: post) url
    = Some (Throw (Error (u "yt-dlp exited " ++ show_code code ++ u ": " ++ tail)))
    /\ (exists p, trim (stderr_of pre) = p ++ tail)
    /\ count_occ N.eq_dec tail 10%N <= 4.
Proof.
  intros Hq Hc. exists (stderr_tail (stderr_of pre)).
  split; [|apply stderr_tail_bound].
  unfold ytDlpMetadata. rewrite fold_left_app, (@probe_outputs JSON_parse _ _ Hq). simpl.
  apply (@settled_stays JSON_parse). simpl. now rewrite Hc.
Qed.

(* ------------------------------------------------------------------ *)
(** *** Further properties: the download route *)

(** [X5]: no exception escapes a route handler or a listener: whatever
    the metadata promise, the search and the host do, the handlers of
    the download, search and video routes return normally, and so does
    every run of listeners. *)
Theorem handlers_never_throw
        (h : Host) (wrapper : option Wrapper) (probe : list ProbeEvent) (id : jsstring)
        (query : JsVal) (found m : Result JsVal) (s : Session) (evs : list Event) :
  fst (download_request h wrapper probe id) = Ok tt
  /\ fst (run h s evs) = Ok tt
  /\ fst (search_handler query found initial) = Ok tt
  /\ fst (video_handler m initial) = Ok tt.
Proof.
  split; [|split; [|split]].
  - unfold download_request. destruct (ytDlpMetadata wrapper probe (watch_url id));
      [apply download_handler_returns | reflexivity].
  - apply run_returns.
  - paths; reflexivity.
  - paths; reflexivity.
Qed.

Lemma step_spawns_nothing (h : Host) (s : Session) (ev : Event) :
  (ytProc s = None -> ytProc (snd (step h s ev)) = None)
  /\ (transcoder s = None -> transcoder (snd (step h s ev)) = None).
Proof.
  open_session s. simpl.
  destruct ev; paths; simpl; split; intros; congruence.
Qed.

Lemma run_spawns_nothing (h : Host) (s : Session) (evs : list Event) :
  (ytProc s = None -> ytProc (snd (run h s evs)) = None)
  /\ (transcoder s = None -> transcoder (snd (run h s evs)) = None).
Proof.
  revert s. induction evs as [|ev evs IH]; intros s; [split; auto|].
  rewrite run_step. destruct (step_spawns_nothing h s ev) as [Hy Ht].
  destruct (IH (snd (step h s ev))) as [Hy' Ht']. split; auto.
Qed.

Lemma handler_spawn_accepted (h : Host) (id : jsstring) (m : Result JsVal) :
  let s := snd (download_handler h id m) in
  ytProc s <> None \/ transcoder s <> None ->
  exists meta n, m = Ok meta /\ duration_of meta = Ok n
                 /\ js_gt n (Finite 3600) = false.
Proof.
  paths; simpl; intros [H|H]; try congruence; eauto.
Qed.

(** [X6]: the download handler starts its two processes, the streaming
    yt-dlp and ffmpeg, only after the metadata promise has resolved and
    the floored duration has passed the ceiling check; this holds at
    every later moment of the session too.  (The [yt-dlp -j] process of
    the metadata query itself runs before the promise settles; it is no
    part of the session and is not meant here.) *)
Theorem spawn_needs_accepted_metadata
        (h : Host) (wrapper : option Wrapper) (probe : list ProbeEvent)
        (id : jsstring) (evs : list Event) :
  let s := snd (run h (snd (download_request h wrapper probe id)) evs) in
  ytProc s <> None \/ transcoder s <> None ->
  exists meta n,
    ytDlpMetadata wrapper probe (watch_url id) = Some (Ok meta)
    /\ duration_of meta = Ok n
    /\ js_gt n (Finite 3600) = false.
Proof.
  intros s Hs. subst s.
  set (s0 := snd (download_request h wrapper probe id)) in *.
  assert (H0 : ytProc s0 <> None \/ transcoder s0 <> None).
  { destruct (run_spawns_nothing h s0 evs) as [Hy Ht].
    destruct Hs as [Hs|Hs]; [left | right]; intros Hn; apply Hs; auto. }
  subst s0. unfold download_request in H0.
  destruct (ytDlpMetadata wrapper probe (watch_url id)) as [m|].
  - destruct (handler_spawn_accepted h id m H0) as (meta & n & -> & Hd & Hgt).
    exists meta, n. auto.
  - simpl in H0. destruct H0; congruence.
Qed.

(** [X7]: every session that starts streaming has an open response with
    status 200 and no body yet, the headers [Content-Type: audio/mpeg],
    [Cache-Control: no-cache], [Transfer-Encoding: chunked],
    [Connection: keep-alive] and
    [Access-Control-Expose-Headers: Content-Disposition], and a running
    extraction process called with
    [-f bestaudio -o - --no-playlist https://www.youtube.com/watch?v=<id>]. *)
Theorem streaming_response (h : Host) (id : jsstring) (m : Result JsVal) :
  let s := snd (download_handler h id m) in
  phase s = Streaming ->
  statusCode (res s) = 200%Z
  /\ body (res s) = []
  /\ finished (res s) = false
  /\ header_of (u "Content-Type") (headers (res s)) = Some (u "audio/mpeg")
  /\ header_of (u "Cache-Control") (headers (res s)) = Some (u "no-cache")
  /\ header_of (u "Transfer-Encoding") (headers (res s)) = Some (u "chunked")
  /\ header_of (u "Connection") (headers (res s)) = Some (u "keep-alive")
  /\ header_of (u "Access-Control-Expose-Headers") (headers (res s))
     = Some (u "Content-Disposition")
  /\ ytProc s = Some (mkChild (ytdlp_argv id) false [] [])
  /\ transcoder s <> None.
Proof.
  paths; simpl; intros; try discriminate;
    repeat split; try reflexivity; discriminate.
Qed.

Lemma non_string_title (title : JsVal) :
  truthy title = true -> is_string title = false ->
  exists e, filename_of title = Throw e.
Proof.
  intros Ht Hs. unfold filename_of, safeTitle, js_or. rewrite Ht.
  destruct title; try discriminate; eexists; reflexivity.
Qed.

Lemma download_failed_view (e : JsErr) :
  stringify_view (download_failed_body e)
  = JObj [(u "error", JStr (u "Download failed"));
          (u "details", JStr (substring0 500 (String_of_err e)))].
Proof. reflexivity. Qed.

Lemma substring0_length (n : nat) (s : jsstring) : List.length (substring0 n s) <= n.
Proof. apply firstn_le_length. Qed.

(** [X8]: metadata that is [null] or [undefined], and metadata whose
    duration passes the ceiling check and whose title is truthy but is
    not a string, make the download route answer 500 with
    [{error: 'Download failed', details}], the details at most 500 code
    units long, and start no process.  (A duration above the ceiling is
    answered 400 before the title is looked at.) *)
Theorem unusable_metadata_fails (h : Host) (id : jsstring) (m : Result JsVal) :
  (m = Ok JNull \/ m = Ok JUndefined
   \/ exists meta n title,
        m = Ok meta /\ duration_of meta = Ok n /\ js_gt n (Finite 3600) = false
        /\ getProp meta (u "title") = Ok title
        /\ truthy title = true /\ is_string title = false) ->
  let s := snd (download_handler h id m) in
  statusCode (res s) = 500%Z
  /\ ytProc s = None /\ transcoder s = None
  /\ exists details,
       body (res s) = [JsonBody (JObj [(u "error", JStr (u "Download failed"));
                                       (u "details", JStr details)])]
       /\ List.length details <= 500.
Proof.
  intros H.
  assert (Hs : exists e, snd (download_handler h id m)
                         = json_session 500 (download_failed_body e)).
  { destruct H as [-> | [-> | (meta & n & title & -> & Hd & Hgt & Ht & Htr & Hs)]].
    - eexists. reflexivity.
    - eexists. reflexivity.
    - destruct (non_string_title _ Htr Hs) as [e He].
      paths; try congruence; eexists; reflexivity. }
  destruct Hs as [e ->]. cbv zeta. unfold json_session. cbn [res ytProc transcoder statusCode body].
  rewrite download_failed_view. repeat split.
  eexists. split; [reflexivity | apply substring0_length].
Qed.

(** [X9]: when starting the pipeline fails after the headers have been
    flushed, the client gets no error: the response is ended as an empty
    200.  If it was the extraction process that could not be started,
    no process exists; if it was ffmpeg, the extraction process already
    running gets one [kill()] (SIGTERM). *)
Theorem failure_after_headers
        (h : Host) (id : jsstring) (meta title : JsVal) (n : JsNum) (f : jsstring) :
  duration_of meta = Ok n -> js_gt n (Finite 3600) = false ->
  getProp meta (u "title") = Ok title -> filename_of title = Ok f ->
  has_flushHeaders h = true ->
  (spawn_fault h <> None \/ ffmpeg_fault h <> None) ->
  let s := snd (download_handler h id (Ok meta)) in
  statusCode (res s) = 200%Z
  /\ finished (res s) = true
  /\ body (res s) = []
  /\ transcoder s = None
  /\ (spawn_fault h <> None -> ytProc s = None)
  /\ (spawn_fault h = None ->
      exists c, ytProc s = Some c /\ argv c = ytdlp_argv id
                /\ kill_calls c = [SIGTERM]).
Proof.
  intros Hd Hgt Ht Hf Hflush Hfault.
  destruct (encode_filename _ Hf) as [r Hr].
  paths; simpl; try congruence.
  all: try (destruct Hfault; congruence).
  all: repeat split; try congruence; intros; try congruence;
    eexists; repeat split.
Qed.

(** [X10]: JSON and audio never mix in a download response: when a JSON
    body went out it is the only thing that went out, and a response that
    carries audio carries nothing else. *)
Theorem json_and_audio_never_mix (h : Host) (s : Session) (v : JsVal) :
  reachable StringToNumber ObjectToNumber h s ->
  In (JsonBody v) (body (res s)) ->
  body (res s) = [JsonBody v] /\ audio_bytes (body (res s)) = []
  /\ finished (res s) = true.
Proof.
  intros Hr Hin. destruct (reachable_inv Hr) as [_ _ _ _ [Ha | (w & Hb & _ & Hf & _)]].
  - rewrite forallb_forall in Ha. specialize (Ha _ Hin). discriminate.
  - rewrite Hb in Hin. destruct Hin as [[= <-] | []].
    rewrite Hb. repeat split. exact Hf.
Qed.

Lemma ytdlp_event_step (h : Host) (s : Session) (ev : Event) :
  from_ytdlp ev = true ->
  let s' := snd (step h s ev) in
  res s' = res s /\ transcoder s' = transcoder s /\ phase s' = phase s
  /\ child_calls (ytProc s') = child_calls (ytProc s)
  /\ child_delivered (ytProc s') = child_delivered (ytProc s).
Proof.
  open_session s. simpl.
  destruct ev; try discriminate; intros _; paths; simpl; repeat split.
Qed.

(** [X11]: the listeners of the extraction process only log.  However
    yt-dlp errs, writes to its standard error or exits, with whatever
    status, the response stays as it was (not ended, no error written)
    and no process is signalled. *)
Theorem extraction_events_only_logged (h : Host) (s : Session) (evs : list Event) :
  forallb from_ytdlp evs = true ->
  let s' := snd (run h s evs) in
  res s' = res s /\ transcoder s' = transcoder s /\ phase s' = phase s
  /\ child_calls (ytProc s') = child_calls (ytProc s)
  /\ child_delivered (ytProc s') = child_delivered (ytProc s).
Proof.
  revert s. induction evs as [|ev evs IH]; intros s Hall.
  - simpl. repeat split.
  - simpl in Hall. apply andb_true_iff in Hall. destruct Hall as [Hev Hevs].
    rewrite run_step.
    destruct (ytdlp_event_step h s ev Hev) as (H1 & H2 & H3 & H4 & H5).
    destruct (IH (snd (step h s ev)) Hevs) as (G1 & G2 & G3 & G4 & G5).
    cbv zeta. repeat split; congruence.
Qed.

(** [X12]: whatever the title, the filename put into
    [Content-Disposition] is made of ASCII letters, digits, underscore,
    dot, hyphen and percent escapes only: it holds no quote, no line
    break, no control or non-ASCII character. *)
Theorem disposition_is_header_safe (h : Host) (id : jsstring) (m : Result JsVal) :
  let s := snd (download_handler h id m) in
  phase s = Streaming ->
  exists encoded,
    header_of (u "Content-Disposition") (headers (res s))
    = Some (u "attachment; filename=" ++ quote ++ encoded ++ quote)
    /\ forallb header_safe encoded = true.
Proof.
  destruct m as [meta|e]; [|discriminate].
  intros s Hp.
  destruct (@download_disposition StringToNumber ObjectToNumber h id meta Hp) as (title & f & encoded & _ & Hf & He & Hh).
  exists encoded. split; [exact Hh|].
  exact (@encode_kept_safe f encoded (@filename_kept title f Hf) He).
Qed.

(* ------------------------------------------------------------------ *)
(** *** Further properties: the search and video routes *)

(** [X13]: without a query the search route answers 400 with
    [{error: 'Query parameter is required'}] and the search is not
    consulted; when the search is rejected it answers 500 with
    [{error: 'Search failed', details}], the details being the whole
    text of the error. *)
Theorem search_edge_cases (query : JsVal) (found : Result JsVal) :
  let r := res (snd (search_handler query found initial)) in
  (truthy query = false ->
   statusCode r = 400%Z
   /\ body r = [JsonBody (JObj [(u "error", JStr (u "Query parameter is required"))])])
  /\ (forall e, truthy query = true -> found = Throw e ->
      statusCode r = 500%Z
      /\ body r = [JsonBody (JObj [(u "error", JStr (u "Search failed"));
                                   (u "details", JStr (String_of_err e))])]).
Proof.
  split.
  - intros Hq. paths; try congruence; split; reflexivity.
  - intros e Hq ->. paths; try congruence; split; reflexivity.
Qed.

(** [X14]: with a query and a search result whose [videos] is an array
    (or absent, which counts as the empty array), the search route
    answers 200 exactly when no element of the array is [null] or
    [undefined].  The answer then has one entry per element, in order:
    what [JSON.stringify] writes of the object built for the element.
    The keys of an entry are among the nine keys [id, title, description,
    thumbnail, channelTitle, duration, timestamp, views, ago] (a key
    whose value is [undefined] is not written), and [channelTitle] and
    [duration], which have defaults, are always among them.  Otherwise
    the route answers 500 with [error: 'Search failed']. *)
Theorem search_answer_shape (query results videos : JsVal) (l : list JsVal) :
  truthy query = true ->
  getProp results (u "videos") = Ok videos ->
  js_or videos (JArr []) = JArr l ->
  let r := res (snd (search_handler query (Ok results) initial)) in
  (forallb (fun v => negb (is_nullish v)) l = true ->
   statusCode r = 200%Z
   /\ exists entries,
        body r = [JsonBody (JArr entries)]
        /\ List.length entries = List.length l
        /\ Forall2 (fun v e => exists x, video_entry v = Ok x /\ e = stringify_view x)
                   l entries
        /\ Forall (fun e => incl (keys_of e) entry_keys
                            /\ In (u "channelTitle") (keys_of e)
                            /\ In (u "duration") (keys_of e)) entries)
  /\ (forallb (fun v => negb (is_nullish v)) l = false ->
      statusCode r = 500%Z
      /\ exists e, body r = [JsonBody (JObj [(u "error", JStr (u "Search failed"));
                                             (u "details", JStr (String_of_err e))])]).
Proof.
  intros Hq Hv Hl. split; intros Hall.
  - destruct (entries_all l Hall) as (raw & Hr & Hpair & Hshape).
    assert (Hvid : videos_of results = Ok (JArr raw)).
    { unfold videos_of. rewrite Hv. cbn [rbind]. rewrite Hl, Hr. reflexivity. }
    paths; try congruence.
    match goal with H : videos_of results = Ok ?a |- _ =>
      assert (a = JArr raw) by congruence; subst a end.
    split; [reflexivity|]. exists (map element_view raw).
    split; [reflexivity|]. split; [|split; assumption].
    symmetry. exact (Forall2_length Hpair).
  - destruct (entries_some_nullish l Hall) as [err Herr].
    assert (Hvid : videos_of results = Throw err).
    { unfold videos_of. rewrite Hv. cbn [rbind]. rewrite Hl, Herr. reflexivity. }
    paths; try congruence.
    split; [reflexivity|]. eexists. reflexivity.
Qed.

Lemma video_failed_view (e : JsErr) :
  stringify_view (video_failed_body e)
  = JObj [(u "error", JStr (u "Failed to get video info"));
          (u "details", JStr (substring0 500 (String_of_err e)))].
Proof. reflexivity. Qed.

Lemma video_info_shape (meta info : JsVal) :
  video_info meta = Ok info ->
  exists title duration author thumbnail formats,
    info = JObj [(u "title", title); (u "duration", JNum duration);
                 (u "author", author); (u "thumbnail", thumbnail);
                 (u "formats", formats)]
    /\ duration_of meta = Ok duration
    /\ is_nullish author = false
    /\ is_nullish formats = false.
Proof.
  unfold video_info, rbind.
  repeat match goal with
         | |- context [match ?x with _ => _ end] =>
             lazymatch x with
             | context [match _ with _ => _ end] => fail
             | _ => destruct x eqn:?
             end
         end; try discriminate.
  all: intros [= <-]; do 5 eexists; split; [reflexivity|];
    split; [reflexivity|]; split; apply js_or_not_nullish; reflexivity.
Qed.

(** The answer of the video route as it is written. *)
Lemma video_answer_shape (title author thumbnail formats : JsVal) (duration : JsNum) :
  is_nullish author = false -> is_nullish formats = false ->
  let answer := stringify_view
                  (JObj [(u "title", title); (u "duration", JNum duration);
                         (u "author", author); (u "thumbnail", thumbnail);
                         (u "formats", formats)]) in
  incl (keys_of answer) video_keys
  /\ In (u "duration") (keys_of answer)
  /\ In (u "author") (keys_of answer)
  /\ In (u "formats") (keys_of answer)
  /\ field (u "duration") answer = stringify_view (JNum duration).
Proof.
  intros Ha Hf answer. subst answer. rewrite stringify_obj. cbn [keys_of field].
  split; [exact (kept_keys_incl _)|].
  split; [apply kept_key_present; reflexivity|].
  split; [apply kept_key_present, nullish_undefined; exact Ha|].
  split; [apply kept_key_present, nullish_undefined; exact Hf|].
  destruct title; reflexivity.
Qed.

(** [X15]: the video route answers either 200 or 500.  A 200 answer is
    what [JSON.stringify] writes of [{title, duration, author,
    thumbnail, formats}]: its keys are among these five, [duration],
    [author] and [formats] are always among them (the last two have
    defaults; [title] and [thumbnail] are not written when
    [undefined]), and [duration] is the floored duration of the
    metadata, written [null] when that is not finite.  A 500 answer is
    [{error: 'Failed to get video info', details}] with details of at
    most 500 code units.  The route has no duration ceiling. *)
Theorem video_route_answers (m : Result JsVal) :
  let r := res (snd (video_handler m initial)) in
  (statusCode r = 200%Z
   /\ exists meta duration answer,
        m = Ok meta
        /\ duration_of meta = Ok duration
        /\ body r = [JsonBody answer]
        /\ incl (keys_of answer) video_keys
        /\ In (u "duration") (keys_of answer)
        /\ In (u "author") (keys_of answer)
        /\ In (u "formats") (keys_of answer)
        /\ field (u "duration") answer = stringify_view (JNum duration))
  \/ (statusCode r = 500%Z
      /\ exists details,
           body r = [JsonBody (JObj [(u "error", JStr (u "Failed to get video info"));
                                     (u "details", JStr details)])]
           /\ List.length details <= 500).
Proof.
  paths.
  all: first
    [ left; split; [reflexivity|];
      match goal with H : _ = Ok ?info |- context [stringify_view ?info] =>
        destruct (video_info_shape _ H) as (t & d & a' & th & fo & -> & Hd & Ha & Hf)
      end;
      destruct (@video_answer_shape t a' th fo d Ha Hf) as (K1 & K2 & K3 & K4 & K5);
      do 3 eexists; split; [reflexivity|]; split; [exact Hd|];
      split; [reflexivity|];
      exact (conj K1 (conj K2 (conj K3 (conj K4 K5))))
    | right; split; [reflexivity|]; cbn [res body snd]; rewrite video_failed_view;
      eexists; split; [reflexivity | apply substring0_length] ].
Qed.

End More.

(* ================================================================== *)
(** ** Further properties: the browser client *)
(* ================================================================== *)






(* ------------------------------------------------------------------ *)
(** *** Reading the filename back *)






Lemma decode_plain (c : code_unit) (rest : jsstring) :
  (c =? 37)%N = false ->
  decodeURIComponent (c :: rest)
  = rbind (decodeURIComponent rest) (fun r => Ok (c :: r)).
Proof. intros H. cbn [decodeURIComponent]. rewrite H. reflexivity. Qed.

Lemma unreserved_not_percent (c : code_unit) :
  uri_unreserved c = true -> (c =? 37)%N = false.
Proof.
  unfold uri_unreserved, between. simpl existsb.
  rewrite !orb_true_iff, !andb_true_iff, !N.leb_le, !N.eqb_eq, N.eqb_neq. lia.
Qed.

Lemma decode_escaped_space (c : code_unit) (rest : jsstring) :
  In c kept_spaces ->
  decodeURIComponent (List.concat (map percent (utf8 c)) ++ rest)
  = rbind (decodeURIComponent rest) (fun r => Ok (c :: r)).
Proof.
  unfold kept_spaces. simpl In. intros H.
  repeat (destruct H as [<- | H]; [reflexivity|]). contradiction.
Qed.

(** Decoding undoes the encoding of a sanitized string, whatever
    follows it. *)
Lemma decode_encode_kept (s : jsstring) :
  Forall (fun c => strip_class c = false) s ->
  forall r tail t,
    encodeURIComponent s = Ok r ->
    decodeURIComponent tail = Ok t ->
    decodeURIComponent (r ++ tail) = Ok (s ++ t).
Proof.
  induction 1 as [|c s Hc _ IH]; intros r tail t.
  - intros [= <-] Ht. exact Ht.
  - destruct (kept_not_surrogate _ Hc) as [Hlow Hhigh].
    simpl encodeURIComponent. rewrite Hlow, Hhigh.
    destruct (encodeURIComponent s) as [r'|e]; [|destruct (uri_unreserved c); discriminate].
    specialize (IH r' tail t eq_refl).
    destruct (uri_unreserved c) eqn:Hu; simpl rbind; intros [= <-] Ht.
    + rewrite <- app_comm_cons, decode_plain by now apply unreserved_not_percent.
      now rewrite (IH Ht).
    + rewrite <- app_assoc, (@decode_escaped_space c _ (@kept_space_enum c Hc Hu)).
      now rewrite (IH Ht).
Qed.

Section ClientSide.

Variable StringToNumber : jsstring -> JsNum.
Variable ObjectToNumber : JsVal -> Result JsNum.
Variable ToString : JsVal -> jsstring.

Local Abbreviation download_handler := (download_handler StringToNumber ObjectToNumber).




(* ------------------------------------------------------------------ *)
(** *** The error shown *)

Lemma app_singleton {A} (l : list A) (x y : A) : l ++ [x] = [y] -> l = [] /\ x = y.
Proof.
  destruct l as [|a [|b l]]; simpl; intros H; inversion H; auto.
Qed.

Lemma handler_known_error (h : Host) (id : jsstring) (m : Result JsVal) :
  known_error (snd (download_handler h id m)).
Proof.
  unfold known_error.
  paths; intros v Hb; cbn [app] in Hb; try discriminate;
    injection Hb as <-; eexists; (split; [|reflexivity]); simpl; tauto.
Qed.

Lemma step_known_error (h : Host) (s : Session) (ev : Event) :
  known_error s -> known_error (snd (step h s ev)).
Proof.
  unfold known_error. open_session s. simpl. intros HP.
  destruct ev; paths; intros v Hb; try (apply HP; exact Hb);
    apply app_singleton in Hb; destruct Hb as [_ Hb]; try discriminate;
    injection Hb as <-; eexists; (split; [|reflexivity]); simpl; tauto.
Qed.

Lemma run_known_error (h : Host) (s : Session) (evs : list Event) :
  known_error s -> known_error (snd (run h s evs)).
Proof.
  revert s. induction evs as [|ev evs IH]; intros s H; [exact H|].
  rewrite run_step. apply IH. now apply step_known_error.
Qed.

Lemma shows_message (title v : JsVal) (msg : jsstring) (r : Reply) :
  In msg server_messages ->
  (400 <=? reply_status r)%Z = true ->
  reply_json r = Ok v ->
  getProp v (u "error") = Ok (JStr msg) ->
  downloadMP3 ToString title (Ok r) = ErrorShown msg.
Proof.
  intros Hin Hst Hj Hg. unfold downloadMP3, rbind at 1, downloadMP3_try.
  assert (Hok : ((200 <=? reply_status r) && (reply_status r <=? 299))%Z = false).
  { apply andb_false_iff. right. apply Z.leb_gt. apply Z.leb_le in Hst. lia. }
  rewrite Hok, Hj, Hg. cbn [negb rbind].
  simpl in Hin. destruct Hin as [<- | [<- | [<- | []]]]; reflexivity.
Qed.

(** [X17]: when the download route answers with a JSON body, the client
    shows the [error] text of that body, which is one of three fixed
    texts; the [details] of the body are never shown. *)
Theorem client_shows_server_message
        (h : Host) (id : jsstring) (m : Result JsVal) (evs : list Event)
        (title v : JsVal) :
  let s := snd (run h (snd (download_handler h id m)) evs) in
  body (res s) = [JsonBody v] ->
  exists msg,
    In msg server_messages
    /\ getProp v (u "error") = Ok (JStr msg)
    /\ downloadMP3 ToString title (Ok (reply_of s)) = ErrorShown msg.
Proof.
  intros s Hb.
  destruct (@run_known_error h _ evs (handler_known_error h id m) v Hb)
    as (msg & Hin & Hg).
  exists msg. split; [exact Hin|]. split; [exact Hg|].
  assert (Hr : reachable StringToNumber ObjectToNumber h s)
    by (apply reachable_run, reach_handler).
  apply reachable_inv in Hr. destruct Hr as [_ _ _ _ H5].
  apply (@shows_message title v msg (reply_of s) Hin).
  - unfold reply_of. cbn [reply_status].
    destruct H5 as [Ha | (v' & _ & _ & _ & Hst)]; [|exact Hst].
    rewrite Hb in Ha. discriminate.
  - unfold reply_of. cbn [reply_json]. now rewrite Hb.
  - exact Hg.
Qed.

End ClientSide.

(** [X18]: the encoded filename of the disposition header decodes back to
    the filename: [decodeURIComponent] undoes [encodeURIComponent] on
    every derived filename. *)
Theorem filename_round_trip (title : JsVal) (filename : jsstring) :
  filename_of title = Ok filename ->
  exists encoded,
    encodeURIComponent filename = Ok encoded
    /\ forallb header_safe encoded = true
    /\ decodeURIComponent encoded = Ok filename.
Proof.
  intros Hf. pose proof (filename_kept _ Hf) as Hk.
  destruct (encode_kept Hk) as [encoded He].
  exists encoded. split; [exact He|]. split.
  - now apply (@encode_kept_safe filename).
  - pose proof (@decode_encode_kept filename Hk encoded [] [] He eq_refl) as H.
    now rewrite !app_nil_r in H.
Qed.

(* ------------------------------------------------------------------ *)
(** *** The duration shown *)

Lemma below_60 (x : N) : (x < 60)%N -> In x (map N.of_nat (seq 0 60)).
Proof.
  intros H. apply in_map_iff. exists (N.to_nat x).
  split; [lia | apply in_seq; lia].
Qed.

Lemma pad_two_digits (x : N) :
  (x < 60)%N -> pad_start2 (show_Z (Z.of_N x)) = two_digits x.
Proof.
  intros H. apply below_60 in H. revert x H. apply Forall_forall.
  repeat (constructor; [reflexivity|]). constructor.
Qed.

(** [X19]: the duration shown for a whole number of seconds splits it
    into hours, minutes below 60 and seconds below 60; the seconds are
    always written with two digits, the minutes with two digits when
    hours are shown, and the hours are left out when they are zero. *)
Theorem formatDuration_fields (n : N) :
  (n < 2 ^ 53)%N ->
  let hrs := (n / 3600)%N in
  let mins := ((n mod 3600) / 60)%N in
  let secs := (n mod 60)%N in
  (n = 3600 * hrs + 60 * mins + secs)%N
  /\ (mins < 60)%N /\ (secs < 60)%N
  /\ formatDuration n
     = (if (hrs =? 0)%N then show_Z (Z.of_N mins)
        else show_Z (Z.of_N hrs) ++ u ":" ++ two_digits mins)
       ++ u ":" ++ two_digits secs.
Proof.
  intros _ hrs mins secs.
  assert (Hm : (mins < 60)%N).
  { unfold mins. apply N.Div0.div_lt_upper_bound.
    change (60 * 60)%N with 3600%N. apply N.mod_lt. discriminate. }
  assert (Hs : (secs < 60)%N) by (apply N.mod_lt; discriminate).
  split; [|split; [exact Hm|split; [exact Hs|]]].
  - unfold hrs, mins, secs.
    pose proof (N.div_mod n 3600) as H1.
    pose proof (N.div_mod (n mod 3600) 60) as H2.
    assert (H3 : ((n mod 3600) mod 60 = n mod 60)%N).
    { change 3600%N with (60 * 60)%N. rewrite N.Div0.mod_mul_r.
      rewrite N.mul_comm, N.Div0.mod_add. apply N.Div0.mod_mod. }
    lia.
  - unfold formatDuration. fold hrs mins secs.
    rewrite !(pad_two_digits Hm), !(pad_two_digits Hs).
    destruct (N.eqb_spec n 0) as [Hn|Hn].
    + subst n. reflexivity.
    + destruct (N.eqb_spec hrs 0) as [Hh|Hh].
      * rewrite Hh. reflexivity.
      * assert (Hpos : (0 <? hrs)%N = true) by (apply N.ltb_lt; lia).
        rewrite Hpos. now rewrite <- !app_assoc.
Qed.

(* ================================================================== *)
(** ** Instances of the further properties *)
(* ================================================================== *)

Lemma metadata_settles_once_witness :
  let evs := [PStdout (u "null"); PClose (Some 0%Z)] in
  let later := [PStderr (u "late"); PError (Error (u "late")); PClose (Some 1%Z)] in
  ytDlpMetadata sample_JSON_parse None evs (u "url") = Some (Ok JNull)
  /\ ytDlpMetadata sample_JSON_parse None (evs ++ later) (u "url") = Some (Ok JNull).
Proof.
  intros evs later. split; [reflexivity|].
  exact (@metadata_settles_once sample_JSON_parse evs later (u "url") (Ok JNull) eq_refl).
Defined.

Lemma metadata_resolves_witness :
  let pre := [PStdout (u "nu"); PStderr (u "WARNING: slow"); PStdout (u "ll")] in
  forallb is_output pre = true
  /\ ytDlpMetadata sample_JSON_parse None pre (u "url") = None
  /\ ytDlpMetadata sample_JSON_parse None
       (pre ++ PClose (Some 0%Z) :: [PStdout (u "x")]) (u "url")
     = Some (sample_JSON_parse (stdout_of pre)).
Proof.
  intros pre. split; [reflexivity|].
  exact (@metadata_resolves_with_stdout sample_JSON_parse pre [PStdout (u "x")] (u "url")
           eq_refl).
Defined.

Lemma metadata_spawn_error_witness :
  let pre := [PStderr (u "x")] in
  forallb is_output pre = true
  /\ ytDlpMetadata sample_JSON_parse None
       (pre ++ PError (Error (u "spawn yt-dlp EACCES")) :: [PClose None]) (u "url")
     = Some (Throw (Error (u "yt-dlp not found on PATH"))).
Proof.
  intros pre. split; [reflexivity|].
  exact (@metadata_spawn_error sample_JSON_parse pre [PClose None]
           (Error (u "spawn yt-dlp EACCES")) (u "url") eq_refl).
Defined.

Lemma metadata_exit_error_witness :
  let pre := [PStdout (u "null"); PStderr (u "ERROR: Video unavailable")] in
  forallb is_output pre = true
  /\ code_is_zero (Some 1%Z) = false
  /\ exists tail,
       ytDlpMetadata sample_JSON_parse None (pre ++ PClose (Some 1%Z) :: []) (u "url")
       = Some (Throw (Error (u "yt-dlp exited " ++ show_code (Some 1%Z) ++ u ": " ++ tail)))
       /\ (exists p, trim (stderr_of pre) = p ++ tail)
       /\ count_occ N.eq_dec tail 10%N <= 4.
Proof.
  intros pre. split; [reflexivity|]. split; [reflexivity|].
  exact (@metadata_exit_error sample_JSON_parse pre [] (Some 1%Z) (u "url")
           eq_refl eq_refl).
Defined.

Lemma spawn_needs_accepted_metadata_witness :
  let wrapper := Some (fun _ : jsstring => Ok short_video) in
  let s := snd (run quiet_host
                    (snd (download_request sample_JSON_parse sample_StringToNumber
                            sample_ObjectToNumber quiet_host wrapper []
                            (u "dQw4w9WgXcQ")))
                    [FfData [Byte.x49]]) in
  (ytProc s <> None \/ transcoder s <> None)
  /\ exists meta n,
       ytDlpMetadata sample_JSON_parse wrapper [] (watch_url (u "dQw4w9WgXcQ"))
       = Some (Ok meta)
       /\ duration_of sample_StringToNumber sample_ObjectToNumber meta = Ok n
       /\ js_gt n (Finite 3600) = false.
Proof.
  intros wrapper s.
  assert (H : ytProc s <> None \/ transcoder s <> None)
    by (left; vm_compute; discriminate).
  split; [exact H|].
  exact (@spawn_needs_accepted_metadata sample_JSON_parse sample_StringToNumber
           sample_ObjectToNumber quiet_host wrapper [] (u "dQw4w9WgXcQ")
           [FfData [Byte.x49]] H).
Defined.

Lemma streaming_response_witness :
  let s := sample_download quiet_host short_video in
  phase s = Streaming
  /\ statusCode (res s) = 200%Z
  /\ header_of (u "Content-Type") (headers (res s)) = Some (u "audio/mpeg")
  /\ ytProc s = Some (mkChild (ytdlp_argv (u "dQw4w9WgXcQ")) false [] []).
Proof.
  intros s. split; [reflexivity|].
  destruct (@streaming_response sample_StringToNumber sample_ObjectToNumber quiet_host
              (u "dQw4w9WgXcQ") (Ok short_video) eq_refl)
    as (H1 & _ & _ & H2 & _ & _ & _ & _ & H3 & _).
  exact (conj H1 (conj H2 H3)).
Defined.

Lemma unusable_metadata_witness :
  let meta := JObj [(u "title", JNum (Finite 7)); (u "duration", JNum (Finite 10))] in
  let s := snd (download_handler sample_StringToNumber sample_ObjectToNumber quiet_host
                  (u "dQw4w9WgXcQ") (Ok meta)) in
  duration_of sample_StringToNumber sample_ObjectToNumber meta = Ok (Finite 10)
  /\ getProp meta (u "title") = Ok (JNum (Finite 7))
  /\ truthy (JNum (Finite 7)) = true
  /\ statusCode (res s) = 500%Z
  /\ ytProc s = None /\ transcoder s = None.
Proof.
  intros meta s. split; [reflexivity|]. split; [reflexivity|]. split; [reflexivity|].
  destruct (@unusable_metadata_fails sample_StringToNumber sample_ObjectToNumber
              quiet_host (u "dQw4w9WgXcQ") (Ok meta)) as (H1 & H2 & H3 & _).
  - right. right. exists meta, (Finite 10), (JNum (Finite 7)).
    repeat split; reflexivity.
  - exact (conj H1 (conj H2 H3)).
Defined.

Lemma failure_after_headers_witness :
  let h := mkHost true None (Some (Error (u "spawn ffmpeg ENOENT"))) (fun _ => None) in
  let s := snd (download_handler sample_StringToNumber sample_ObjectToNumber h
                  (u "dQw4w9WgXcQ") (Ok short_video)) in
  duration_of sample_StringToNumber sample_ObjectToNumber short_video = Ok (Finite 215)
  /\ filename_of (JStr (u "Song: Bad/Name?")) = Ok (u "Song BadName.mp3")
  /\ statusCode (res s) = 200%Z
  /\ finished (res s) = true
  /\ body (res s) = []
  /\ exists c, ytProc s = Some c /\ argv c = ytdlp_argv (u "dQw4w9WgXcQ")
               /\ kill_calls c = [SIGTERM].
Proof.
  intros h s. split; [reflexivity|]. split; [reflexivity|].
  destruct (@failure_after_headers sample_StringToNumber sample_ObjectToNumber h
              (u "dQw4w9WgXcQ") short_video (JStr (u "Song: Bad/Name?")) (Finite 215)
              (u "Song BadName.mp3") eq_refl eq_refl eq_refl eq_refl eq_refl)
    as (H1 & H2 & H3 & _ & _ & H4).
  - right. discriminate.
  - exact (conj H1 (conj H2 (conj H3 (H4 eq_refl)))).
Defined.

Lemma json_and_audio_witness :
  let s := sample_download quiet_host long_video in
  In (JsonBody too_long_body) (body (res s))
  /\ body (res s) = [JsonBody too_long_body]
  /\ audio_bytes (body (res s)) = []
  /\ finished (res s) = true.
Proof.
  intros s.
  assert (H : In (JsonBody too_long_body) (body (res s))) by (left; reflexivity).
  split; [exact H|].
  exact (@json_and_audio_never_mix sample_StringToNumber sample_ObjectToNumber
           quiet_host s too_long_body (reach_handler _ _ _ _ _) H).
Defined.

Lemma extraction_events_witness :
  let s := sample_download quiet_host short_video in
  let evs := [YtStderr (u "WARNING: throttled"); YtError (Error (u "EPIPE"));
              YtClose (Some 1%Z)] in
  forallb from_ytdlp evs = true
  /\ res (snd (run quiet_host s evs)) = res s
  /\ phase (snd (run quiet_host s evs)) = phase s.
Proof.
  intros s evs. split; [reflexivity|].
  destruct (@extraction_events_only_logged quiet_host s evs eq_refl)
    as (H1 & _ & H2 & _).
  exact (conj H1 H2).
Defined.

Lemma disposition_witness :
  let s := sample_download quiet_host short_video in
  phase s = Streaming
  /\ exists encoded,
       header_of (u "Content-Disposition") (headers (res s))
       = Some (u "attachment; filename=" ++ quote ++ encoded ++ quote)
       /\ forallb header_safe encoded = true.
Proof.
  intros s. split; [reflexivity|].
  exact (@disposition_is_header_safe sample_StringToNumber sample_ObjectToNumber
           quiet_host (u "dQw4w9WgXcQ") (Ok short_video) eq_refl).
Defined.

Lemma search_edge_cases_witness :
  (truthy (JStr []) = false
   /\ statusCode (res (snd (search_handler (JStr []) (Ok JNull) initial))) = 400%Z)
  /\ (truthy (JStr (u "lofi")) = true
      /\ statusCode (res (snd (search_handler (JStr (u "lofi"))
                                 (Throw (Error (u "getaddrinfo ENOTFOUND"))) initial)))
         = 500%Z).
Proof.
  split; (split; [reflexivity|]).
  - destruct (@search_edge_cases (JStr []) (Ok JNull)) as [H _].
    exact (proj1 (H eq_refl)).
  - destruct (@search_edge_cases (JStr (u "lofi"))
                (Throw (Error (u "getaddrinfo ENOTFOUND")))) as [_ H].
    exact (proj1 (H _ eq_refl eq_refl)).
Defined.

Lemma search_answer_witness :
  let found := JObj [(u "videos",
                      JArr [JObj [(u "videoId", JStr (u "dQw4w9WgXcQ"));
                                  (u "title", JStr (u "Song"))]])] in
  let r := res (snd (search_handler (JStr (u "lofi")) (Ok found) initial)) in
  truthy (JStr (u "lofi")) = true
  /\ statusCode r = 200%Z
  /\ exists entries,
       body r = [JsonBody (JArr entries)]
       /\ List.length entries = 1
       /\ Forall (fun e => incl (keys_of e) entry_keys
                           /\ In (u "channelTitle") (keys_of e)
                           /\ In (u "duration") (keys_of e)) entries.
Proof.
  intros found r. split; [reflexivity|].
  destruct (@search_answer_shape (JStr (u "lofi")) found _ _ eq_refl eq_refl eq_refl)
    as [H _].
  destruct (H eq_refl) as (H200 & entries & Hb & Hlen & _ & Hshape).
  split; [exact H200|]. exists entries.
  exact (conj Hb (conj Hlen Hshape)).
Defined.

(** The entry written for a found video that has an id and a title only:
    four keys, the two it has and the two with defaults. *)
Example search_entry_written :
  body (res (snd (search_handler (JStr (u "lofi"))
                    (Ok (JObj [(u "videos",
                                JArr [JObj [(u "videoId", JStr (u "dQw4w9WgXcQ"));
                                            (u "title", JStr (u "Song"))]])]))
                    initial)))
  = [JsonBody (JArr [JObj [(u "id", JStr (u "dQw4w9WgXcQ")); (u "title", JStr (u "Song"));
                           (u "channelTitle", JStr []);
                           (u "duration", JNum (Finite 0))]])].
Proof. vm_compute. reflexivity. Qed.

(** The video route on metadata whose uploader is an infinite number: the
    author is written [null]. *)
Example video_author_written_null :
  body (res (snd (video_handler sample_StringToNumber sample_ObjectToNumber
                    (Ok (JObj [(u "title", JStr (u "Song"));
                               (u "duration", JNum (Finite 215));
                               (u "uploader", JNum PosInf)]))
                    initial)))
  = [JsonBody (JObj [(u "title", JStr (u "Song")); (u "duration", JNum (Finite 215));
                     (u "author", JNull); (u "thumbnail", JNull);
                     (u "formats", JArr [])])].
Proof. vm_compute. reflexivity. Qed.


(** The file of that run, cut short by the transcoder, as the client
    saves it: the three bytes that arrived, under a name that ends with
    a double quote. *)
Example client_saves_truncated :
  downloadMP3 sample_ToString (JStr (u "Song: Bad/Name?"))
    (Ok (reply_of (snd (run quiet_host (sample_download quiet_host short_video)
                            [FfData [Byte.x49; Byte.x44; Byte.x33]; YtClose (Some 0%Z);
                             FfError (Error (u "ffmpeg exited with code 1"))]))))
  = Saved (u "Song BadName.mp3" ++ quote) [Byte.x49; Byte.x44; Byte.x33].
Proof. vm_compute. reflexivity. Qed.

Lemma client_shows_witness :
  let s := snd (run quiet_host (sample_download quiet_host long_video) [ReqClose false]) in
  body (res s) = [JsonBody too_long_body]
  /\ exists msg,
       In msg server_messages
       /\ getProp too_long_body (u "error") = Ok (JStr msg)
       /\ downloadMP3 sample_ToString (JStr (u "Concert")) (Ok (reply_of s))
          = ErrorShown msg.
Proof.
  intros s.
  assert (H : body (res s) = [JsonBody too_long_body]) by (vm_compute; reflexivity).
  split; [exact H|].
  exact (@client_shows_server_message sample_StringToNumber sample_ObjectToNumber
           sample_ToString quiet_host (u "dQw4w9WgXcQ") (Ok long_video) [ReqClose false]
           (JStr (u "Concert")) too_long_body H).
Defined.

Lemma filename_round_trip_witness :
  filename_of (JStr (u "Song: Bad/Name?")) = Ok (u "Song BadName.mp3")
  /\ exists encoded,
       encodeURIComponent (u "Song BadName.mp3") = Ok encoded
       /\ forallb header_safe encoded = true
       /\ decodeURIComponent encoded = Ok (u "Song BadName.mp3").
Proof.
  split; [reflexivity|].
  exact (@filename_round_trip (JStr (u "Song: Bad/Name?")) (u "Song BadName.mp3") eq_refl).
Defined.

Lemma formatDuration_witness :
  (3725 < 2 ^ 53)%N
  /\ formatDuration 3725 = u "1:02:05"
  /\ formatDuration 59 = u "0:59".
Proof.
  split; [reflexivity|]. split.
  - destruct (@formatDuration_fields 3725 eq_refl) as (_ & _ & _ & H). exact H.
  - destruct (@formatDuration_fields 59 eq_refl) as (_ & _ & _ & H). exact H.
Defined.
